(** * check_coordinates.py: the radar value at a coordinate, and the batch report

    A shallow embedding of [get_radar_value_at_coord], of the [__main__]
    block and of [download_radar_files_for_date] of [check_coordinates.py].

    - Python and NumPy floats are IEEE binary64 numbers: Rocq's primitive
      [float], whose operations are specified by [FloatAxioms] over
      [SpecFloat].  h5py hands attributes over as NumPy scalars, so a division
      by zero yields [nan] or an infinity and raises nothing.
    - Exceptions are values of [exn]; code that may raise returns a [result].
    - An HDF5 file is a record of its groups, a group a record of its
      attributes, each of them optional: a missing one is a [KeyError].
      Attributes carry the ODIM_H5 types: byte strings, doubles, and a long
      for [endepochs].
    - pyproj, [datetime.strptime] and the [.2f] formatting are libraries,
      taken as parameters of the extraction.
    - The [print] call of the extractor and the report lines only write to
      the console; the report is modelled as the list of the tuples that are
      printed. *)

From Stdlib Require Import ZArith QArith Qabs Floats String Ascii DecimalString List Bool Lia.
From Stdlib Require Import Sorting.Permutation Sorting.Sorted.
Import ListNotations.

Set Warnings "-inexact-float".
Local Open Scope Z_scope.

(** ** Exceptions and results *)

Inductive exn : Type :=
| OSError (path : string)          (* os.listdir, h5py.File *)
| KeyError (key : string)          (* f[path], attrs[name] *)
| UnicodeDecodeError               (* bytes.decode('ascii') *)
| ValueError                       (* strptime; round(nan) *)
| OverflowError                    (* round(inf) *)
| DateRangeError                   (* datetime.fromtimestamp out of range *)
| CRSError                         (* pyproj.CRS on an invalid definition *)
| IndexError                       (* dset[row, col] out of range *)
| ParserRejectedMarkup.            (* BeautifulSoup on markup it rejects *)

Inductive result (A : Type) : Type :=
| Ok (a : A)
| Raise (e : exn).

Arguments Ok {A} a.
Arguments Raise {A} e.

Definition bind {A B : Type} (r : result A) (k : A -> result B) : result B :=
  match r with
  | Ok a => k a
  | Raise e => Raise e
  end.

Notation "x <- r ;; k" := (bind r (fun x => k))
  (at level 61, r at next level, right associativity).
Notation "' p <- r ;; k" := (bind r (fun p => k))
  (at level 61, p pattern, r at next level, right associativity).

(** [d[key]] on a mapping whose entry is optional. *)
Definition getitem {A : Type} (key : string) (entry : option A) : result A :=
  match entry with
  | Some a => Ok a
  | None => Raise (KeyError key)
  end.

Fixpoint mapM {A B : Type} (f : A -> result B) (l : list A) : result (list B) :=
  match l with
  | [] => Ok []
  | a :: l' => b <- f a ;; bs <- mapM f l' ;; Ok (b :: bs)
  end.

(** ** Binary64 numbers *)

(** NumPy's conversion of an integer cell to float64: round to nearest, ties
    to even (exact below 2^53). *)
Definition promote (z : Z) : float :=
  SF2Prim (binary_normalize prec emax z 0 false).

(** The integer nearest to [m * 2^e], ties to the even one. *)
Definition round_half_even (m e : Z) : Z :=
  match e with
  | Zneg p =>
      let d := Z.pow_pos 2 p in
      let q := m / d in
      let r := m mod d in
      match 2 * r ?= d with
      | Lt => q
      | Gt => q + 1
      | Eq => if Z.even q then q else q + 1
      end
  | _ => m * 2 ^ e
  end.

(** Python's [round(x)] on a float: an [int], or an exception when [x] is
    not finite. *)
Definition py_round (x : float) : result Z :=
  match Prim2SF x with
  | S754_zero _ => Ok 0
  | S754_finite s m e => Ok (round_half_even (cond_Zopp s (Zpos m)) e)
  | S754_nan => Raise ValueError
  | S754_infinity _ => Raise OverflowError
  end.

(** The rational number a finite float stands for. *)
Definition SF2Q (x : spec_float) : option Q :=
  match x with
  | S754_zero _ => Some 0%Q
  | S754_finite s m (Zneg p) => Some (Qmake (cond_Zopp s (Zpos m)) (Pos.pow 2 p))
  | S754_finite s m e => Some (inject_Z (cond_Zopp s (Zpos m) * 2 ^ e))
  | _ => None
  end.

Definition float_value (x : float) : option Q := SF2Q (Prim2SF x).

(** [z] is an integer nearest to [q], and the even one when two are. *)
Definition nearest_even (z : Z) (q : Q) : Prop :=
  (Qabs (inject_Z z - q) <= 1 # 2)%Q
  /\ ((Qabs (inject_Z z - q) == 1 # 2)%Q -> Z.even z = true).

(** A float that stands for a number: neither [nan] nor an infinity. *)
Definition finite (x : float) : bool :=
  match Prim2SF x with
  | S754_zero _ | S754_finite _ _ _ => true
  | _ => false
  end.

(** A float by which zero can be divided: neither zero nor [nan]. *)
Definition divides_zero (x : float) : bool :=
  match Prim2SF x with
  | S754_finite _ _ _ | S754_infinity _ => true
  | _ => false
  end.

(** ** Strings *)

Fixpoint endswith (s suffix : string) : bool :=
  if String.eqb s suffix then true
  else match s with
       | EmptyString => false
       | String _ s' => endswith s' suffix
       end.

Fixpoint is_ascii (s : string) : bool :=
  match s with
  | EmptyString => true
  | String c s' => (nat_of_ascii c <? 128)%nat && is_ascii s'
  end.

(** [b.decode('ascii')]. *)
Definition decode_ascii (b : string) : result string :=
  if is_ascii b then Ok b else Raise UnicodeDecodeError.

Fixpoint last_char (s : string) : option ascii :=
  match s with
  | EmptyString => None
  | String c EmptyString => Some c
  | String _ s' => last_char s'
  end.

(** ** The HDF5 container *)

Module H5.

Record what_attrs : Type := {
  enddate : option string;
  endtime : option string;
  gain : option float;
  offset : option float;
  nodata : option float;
  undetect : option float
}.

Record how_attrs : Type := {
  endepochs : option Z
}.

Record where_attrs : Type := {
  projdef : option string;
  UL_lon : option float;
  UL_lat : option float;
  xscale : option float;
  yscale : option float
}.

(** A two-dimensional dataset of integer cells: [shape = (ysize, xsize)]. *)
Record dataset : Type := {
  shape : nat * nat;
  cell : nat -> nat -> Z
}.

Record file : Type := {
  what_group : option what_attrs;
  how_group : option how_attrs;
  where_group : option where_attrs;
  data : option dataset
}.

End H5.

Definition is_some {A : Type} (o : option A) : bool :=
  match o with
  | Some _ => true
  | None => false
  end.

(** The items the external interface lists: the four groups or datasets and
    their attributes, without the textual end date and end time. *)
Definition listed_items_present (f : H5.file) : bool :=
  match H5.what_group f, H5.how_group f, H5.where_group f, H5.data f with
  | Some w, Some h, Some wh, Some _ =>
      is_some (H5.gain w) && is_some (H5.offset w) && is_some (H5.nodata w)
      && is_some (H5.undetect w) && is_some (H5.endepochs h)
      && is_some (H5.projdef wh) && is_some (H5.UL_lon wh) && is_some (H5.UL_lat wh)
      && is_some (H5.xscale wh) && is_some (H5.yscale wh)
  | _, _, _, _ => false
  end.

(** The items the code reads: the listed ones, [enddate] and [endtime]. *)
Definition read_items_present (f : H5.file) : bool :=
  listed_items_present f
  && match H5.what_group f with
     | Some w => is_some (H5.enddate w) && is_some (H5.endtime w)
     | None => false
     end.

(** The file with other textual end date and end time attributes. *)
Definition with_end_text (date time : option string) (f : H5.file) : H5.file :=
  {| H5.what_group :=
       match H5.what_group f with
       | Some w =>
           Some {| H5.enddate := date; H5.endtime := time;
                   H5.gain := H5.gain w; H5.offset := H5.offset w;
                   H5.nodata := H5.nodata w; H5.undetect := H5.undetect w |}
       | None => None
       end;
     H5.how_group := H5.how_group f;
     H5.where_group := H5.where_group f;
     H5.data := H5.data f |}.

(** [dset[row, col]]: a negative index counts from the end; an index that
    is still out of range raises. *)
Definition normalize_index (i : Z) (size : nat) : option nat :=
  let j := if i <? 0 then i + Z.of_nat size else i in
  if (0 <=? j) && (j <? Z.of_nat size) then Some (Z.to_nat j) else None.

Definition dset_getitem (dset : H5.dataset) (row col : Z) : result Z :=
  match normalize_index row (fst (H5.shape dset)),
        normalize_index col (snd (H5.shape dset)) with
  | Some r, Some c => Ok (H5.cell dset r c)
  | _, _ => Raise IndexError
  end.

(** The file system the program reads: the listing of a directory and the
    HDF5 files that open. *)
Record filesystem : Type := {
  listdir : string -> option (list string);
  h5py_File : string -> option H5.file
}.

(** ** User configuration *)

Definition H5_DATADIR : string := "./datafiles/".
Definition DATASET_PATH : string := "/dataset1/data1/data".
Definition WHERE_GROUP_PATH : string := "/where".
Definition WHAT_GROUP_PATH : string := "/dataset1/what".
Definition HOW_GROUP_PATH : string := "/how".
Definition TARGET_LAT : float := 43.492543%float.
Definition TARGET_LON : float := 25.500355%float.

(** [os.path.join(H5_DATADIR, name)]: the directory ends in a separator. *)
Definition os_path_join (dir name : string) : string :=
  match name with
  | String "/"%char _ => name
  | _ => (dir ++ name)%string
  end.

(** [datetime.fromtimestamp(epoch, tz=timezone.utc)] exists for the years
    1 to 9999 only. *)
Definition fromtimestamp (epoch : Z) : result Z :=
  if (-62135596800 <=? epoch) && (epoch <=? 253402300799)
  then Ok epoch else Raise DateRangeError.

(** ** Readings *)

(** The tuple [(end_epoch, realvalue, real_dbz, rawfilename)], with the names
    the report loop gives to its components. *)
Record reading : Type := {
  epoch : Z;
  value : string;
  dbz : float;
  filename : string
}.

Definition NOT_IN_DATA : string := "Not in data".
Definition NO_DATA : string := "No Data (pixel is outside the scan area)".
Definition UNDETECTED : string := "Undetected (clear air, no return signal)".

Inductive category : Type := NotInData | NoData | Undetect | Measured.

(** The category a [realvalue] text stands for. *)
Definition category_of (realvalue : string) : category :=
  if String.eqb realvalue NOT_IN_DATA then NotInData
  else if String.eqb realvalue NO_DATA then NoData
  else if String.eqb realvalue UNDETECTED then Undetect
  else Measured.

Definition is_measured (r : reading) : bool :=
  match category_of (value r) with
  | Measured => true
  | _ => false
  end.

(** ** Sorting by a key

    [list.sort(key=...)] is a stable sort: insertion from the right, each
    element placed before the first one whose key is not smaller. *)

Section SortByKey.
Context {A : Type} (key : A -> Z).

Fixpoint insert_by (x : A) (l : list A) : list A :=
  match l with
  | [] => [x]
  | y :: l' => if key x <=? key y then x :: l else y :: insert_by x l'
  end.

Definition sort_by (l : list A) : list A := fold_right insert_by [] l.

Definition key_le (a b : A) : Prop := key a <= key b.
End SortByKey.

(** ** The extraction *)

(** The local variables of [get_radar_value_at_coord] once the metadata are
    read (lines 109 to 137). *)
Record metadata : Type := {
  gain : float;
  offset : float;
  nodata_val : float;
  undetect_val : float;
  end_epoch : Z;
  projdef : string;
  ul_lon : float;
  ul_lat : float;
  x_scale : float;
  y_scale : float;
  dset : H5.dataset
}.

Definition ysize (g : metadata) : Z := Z.of_nat (fst (H5.shape (dset g))).
Definition xsize (g : metadata) : Z := Z.of_nat (snd (H5.shape (dset g))).

(** ** Sample libraries and sample files

    Stand-ins for the library parameters, used where a statement is
    evaluated on a concrete file. *)

Record datetime : Type := {
  year : Z; month : Z; day : Z; hour : Z; minute : Z; second : Z
}.

Definition digit_of (c : ascii) : option Z :=
  let n := Z.of_nat (nat_of_ascii c) in
  if (48 <=? n) && (n <=? 57) then Some (n - 48) else None.

Fixpoint digits_value (acc : Z) (s : string) : option Z :=
  match s with
  | EmptyString => Some acc
  | String c s' =>
      match digit_of c with
      | Some d => digits_value (10 * acc + d) s'
      | None => None
      end
  end.

Definition field (s : string) (start len : nat) : option Z :=
  digits_value 0 (substring start len s).

(** Accepts fourteen digits, [YYYYmmddHHMMSS], with every field in a range
    that all months share. *)
Definition sample_strptime (s format : string) : option datetime :=
  if negb (String.eqb format "%Y%m%d%H%M%S") then None
  else if negb (Nat.eqb (String.length s) 14) then None
  else
    match field s 0 4, field s 4 2, field s 6 2, field s 8 2, field s 10 2, field s 12 2 with
    | Some y, Some mo, Some d, Some h, Some mi, Some sec =>
        if (1 <=? y) && (1 <=? mo) && (mo <=? 12) && (1 <=? d) && (d <=? 28)
           && (h <=? 23) && (mi <=? 59) && (sec <=? 59)
        then Some {| year := y; month := mo; day := d; hour := h; minute := mi; second := sec |}
        else None
    | _, _, _, _, _, _ => None
    end.

(** A definition is accepted when it is an EPSG code or a PROJ string. *)
Definition sample_CRS (definition : string) : option string :=
  if prefix "EPSG:" definition || prefix "+proj=" definition
  then Some definition else None.

(** An equidistant cylindrical projection of the sphere, in metres per
    degree; as pyproj does without [errcheck], a coordinate outside the
    domain of the projection comes back as [inf]. *)
Definition sample_transform (source target : string) (lon lat : float) : float * float :=
  if (abs lat <=? 90)%float && (abs lon <=? 360)%float
  then ((lon * 111319.5)%float, (lat * 111319.5)%float)
  else (infinity, infinity).

(** The decimal digits of a non-negative integer. *)
Definition digits (n : Z) : string :=
  NilZero.string_of_uint (N.to_uint (Z.to_N n)).

(** Two decimals, correctly rounded: the nearest multiple of 0.01 of the
    exact value, ties to even, with the sign of the float. *)
Definition sample_format_2f (x : float) : string :=
  let sign (s : bool) := if s then "-"%string else EmptyString in
  match Prim2SF x with
  | S754_nan => "nan"%string
  | S754_infinity s => (sign s ++ "inf")%string
  | S754_zero s => (sign s ++ "0.00")%string
  | S754_finite s m e =>
      let n := round_half_even (100 * Zpos m) e in
      let cents := n mod 100 in
      (sign s ++ digits (n / 100) ++ "."
       ++ (if (cents <? 10)%Z then "0" else EmptyString) ++ digits cents)%string
  end.

(** *** Sample files *)

Definition sample_what : H5.what_attrs :=
  {| H5.enddate := Some "20240512"%string; H5.endtime := Some "221009"%string;
     H5.gain := Some 0.5%float; H5.offset := Some (-32)%float;
     H5.nodata := Some 255%float; H5.undetect := Some 0%float |}.

Definition sample_how : H5.how_attrs := {| H5.endepochs := Some 1715551809 |}.

Definition sample_where : H5.where_attrs :=
  {| H5.projdef := Some "+proj=eqc +R=6378137"%string;
     H5.UL_lon := Some 20%float; H5.UL_lat := Some 45%float;
     H5.xscale := Some 1000%float; H5.yscale := Some 1000%float |}.

(** 500 rows of 700 cells; a storm cell of raw value 172 at pixel (168, 612),
    a cell outside the scan at (0, 0), no echo elsewhere. *)
Definition sample_dset : H5.dataset :=
  {| H5.shape := (500%nat, 700%nat);
     H5.cell := fun r c =>
       if (Nat.eqb r 168 && Nat.eqb c 612)%bool then 172
       else if (Nat.eqb r 0 && Nat.eqb c 0)%bool then 255
       else 0 |}.

Definition sample_file : H5.file :=
  {| H5.what_group := Some sample_what; H5.how_group := Some sample_how;
     H5.where_group := Some sample_where; H5.data := Some sample_dset |}.

(** The sample file without its textual end date. *)
Definition file_without_enddate : H5.file :=
  {| H5.what_group :=
       Some {| H5.enddate := None; H5.endtime := Some "221009"%string;
               H5.gain := Some 0.5%float; H5.offset := Some (-32)%float;
               H5.nodata := Some 255%float; H5.undetect := Some 0%float |};
     H5.how_group := Some sample_how;
     H5.where_group := Some sample_where; H5.data := Some sample_dset |}.

(** The sample file with a horizontal scale of zero. *)
Definition file_zero_xscale : H5.file :=
  {| H5.what_group := Some sample_what; H5.how_group := Some sample_how;
     H5.where_group :=
       Some {| H5.projdef := Some "+proj=eqc +R=6378137"%string;
               H5.UL_lon := Some 20%float; H5.UL_lat := Some 45%float;
               H5.xscale := Some 0%float; H5.yscale := Some 1000%float |};
     H5.data := Some sample_dset |}.

(** An earlier file with the same grid whose cell at the target is weak. *)
Definition weak_file : H5.file :=
  {| H5.what_group := Some sample_what;
     H5.how_group := Some {| H5.endepochs := Some 1715551209 |};
     H5.where_group := Some sample_where;
     H5.data := Some {| H5.shape := (500%nat, 700%nat); H5.cell := fun _ _ => 140 |} |}.

(** A later file whose grid lies north of the target. *)
Definition far_file : H5.file :=
  {| H5.what_group := Some sample_what;
     H5.how_group := Some {| H5.endepochs := Some 1715552409 |};
     H5.where_group :=
       Some {| H5.projdef := Some "+proj=eqc +R=6378137"%string;
               H5.UL_lon := Some 20%float; H5.UL_lat := Some 60%float;
               H5.xscale := Some 1000%float; H5.yscale := Some 1000%float |};
     H5.data := Some sample_dset |}.

Definition sample_fs : filesystem :=
  {| listdir := fun dir =>
       if String.eqb dir H5_DATADIR
       then Some ["far.h5"; "storm.h5"; "notes.txt"; "weak.h5"]%string
       else None;
     h5py_File := fun path =>
       if String.eqb path "./datafiles/storm.h5" then Some sample_file
       else if String.eqb path "./datafiles/weak.h5" then Some weak_file
       else if String.eqb path "./datafiles/far.h5" then Some far_file
       else None |}.

(** What the extraction holds of the sample files, and what it returns. *)
Definition sample_metadata : metadata :=
  {| gain := 0.5%float; offset := (-32)%float; nodata_val := 255%float;
     undetect_val := 0%float; end_epoch := 1715551809;
     projdef := "+proj=eqc +R=6378137"%string;
     ul_lon := 20%float; ul_lat := 45%float;
     x_scale := 1000%float; y_scale := 1000%float; dset := sample_dset |}.

Definition far_metadata : metadata :=
  {| gain := 0.5%float; offset := (-32)%float; nodata_val := 255%float;
     undetect_val := 0%float; end_epoch := 1715552409;
     projdef := "+proj=eqc +R=6378137"%string;
     ul_lon := 20%float; ul_lat := 60%float;
     x_scale := 1000%float; y_scale := 1000%float; dset := sample_dset |}.

Definition zero_xscale_metadata : metadata :=
  {| gain := 0.5%float; offset := (-32)%float; nodata_val := 255%float;
     undetect_val := 0%float; end_epoch := 1715551809;
     projdef := "+proj=eqc +R=6378137"%string;
     ul_lon := 20%float; ul_lat := 45%float;
     x_scale := 0%float; y_scale := 1000%float; dset := sample_dset |}.

Definition storm_reading : reading :=
  {| epoch := 1715551809; value := "54.00 dBZ"; dbz := 54%float;
     filename := "storm.h5" |}.

Definition weak_reading : reading :=
  {| epoch := 1715551209; value := "38.00 dBZ"; dbz := 38%float;
     filename := "weak.h5" |}.

Definition far_reading : reading :=
  {| epoch := 1715552409; value := NOT_IN_DATA; dbz := 0%float;
     filename := "far.h5" |}.

(** The readings in the order of the listing of [sample_fs]. *)
Definition sample_parseddata : list reading :=
  [far_reading; storm_reading; weak_reading].

(** ** The remote fetcher: the server and the local files

    [download_radar_files_for_date] acts on the local files, sends GET
    requests and prints.  A [world] holds what exists locally, the URLs
    requested so far and the lines printed so far; an [environment] holds
    what the run does not decide: the response of the server to the n-th
    request of the run, whether a path can be created, and what [open]
    raises where it cannot. *)

Definition SERVER_URL : string := "http://83.228.89.166/".

Inductive node : Type :=
| File (content : string)
| Directory.

(** The body of a response, chunk by chunk; a broken one ends in a
    [RequestException] after the chunks that arrived. *)
Inductive body : Type :=
| Complete (chunks : list string)
| Broken (chunks : list string) (error : string).

(** What a GET leads to: [requests.get] raises, or [raise_for_status] does,
    or the body can be read.  The texts are those of the exceptions. *)
Inductive response : Type :=
| NoResponse (error : string)
| BadStatus (error : string)
| Good (b : body).

Definition chunks_of (b : body) : list string :=
  match b with
  | Complete chunks => chunks
  | Broken chunks _ => chunks
  end.

Definition join_chunks (chunks : list string) : string :=
  String.concat EmptyString chunks.

(** [open_error path] is the exception of [open(path, 'wb')] on a path that
    cannot be created: an [OSError], or the [ValueError] of a name that holds
    a null character. *)
Record environment : Type := {
  server : nat -> string -> response;
  creatable : string -> bool;
  open_error : string -> exn
}.

Record world : Type := {
  nodes : string -> option node;
  requested : list string;
  printed : list string
}.

Definition py_print (line : string) (w : world) : world :=
  {| nodes := nodes w; requested := requested w; printed := printed w ++ [line] |}.

(** [requests.get(url)]: the response to this request, the next of the run. *)
Definition requests_get (env : environment) (url : string) (w : world)
    : response * world :=
  (server env (length (requested w)) url,
   {| nodes := nodes w; requested := requested w ++ [url]; printed := printed w |}).

Definition create (path : string) (n : node) (w : world) : world :=
  {| nodes := fun p => if String.eqb p path then Some n else nodes w p;
     requested := requested w; printed := printed w |}.

(** [path.mkdir(parents=True, exist_ok=True)], for a path whose parent is the
    current directory: a directory that is there is left alone, a file in
    its place is an error. *)
Definition mkdir (env : environment) (path : string) (w : world)
    : world * option exn :=
  match nodes w path with
  | Some Directory => (w, None)
  | Some (File _) => (w, Some (OSError path))
  | None =>
      if creatable env path then (create path Directory w, None)
      else (w, Some (OSError path))
  end.

Definition newline : string := String (ascii_of_nat 10) EmptyString.

(** ** The remote fetcher *)

Section Fetcher.
(** [datetime.strptime(text, format)]: [None] stands for its [ValueError]. *)
Variable strptime : string -> string -> option datetime.
(** [date_obj.strftime(format)]: [None] stands for its [ValueError]. *)
Variable strftime : datetime -> string -> option string.
(** The [href] of every [a] element of a page, in document order:
    [link.get('href')] over [BeautifulSoup(text, 'html.parser').find_all('a')];
    or the exception of the parser on markup that it rejects. *)
Variable find_all_a_href : string -> result (list (option string)).
(** [re.compile(pattern).match(text)] finds a match. *)
Variable re_match : string -> string -> bool.
(** [str(Path(text))] and [str(Path(text) / name)]. *)
Variable Path : string -> string.
Variable path_div : string -> string -> string.

(** Lines 42 to 44: the date of the file names, or [None] for the
    [ValueError] that line 45 catches. *)
Definition filename_date_prefix (date_str : string) : option string :=
  match strptime date_str "%Y-%m-%d" with
  | Some date_obj => strftime date_obj "%Y%m%d"
  | None => None
  end.

(** Line 63. *)
Definition file_pattern (prefix : string) : string :=
  ("Composite\." ++ prefix ++ ".*\.h5")%string.

(** Lines 65 to 69: the links kept from the anchors of the page. *)
Fixpoint links_to_download (pattern : string) (hrefs : list (option string))
    : list string :=
  match hrefs with
  | [] => []
  | Some href :: rest =>
      if negb (String.eqb href EmptyString) && re_match pattern href
      then href :: links_to_download pattern rest
      else links_to_download pattern rest
  | None :: rest => links_to_download pattern rest
  end.

(** Lines 79 to 98: one turn of the download loop.  The handler of line 97
    catches the failures of the request and of the body; what [open] raises
    leaves the loop. *)
Definition download_one (env : environment) (download_path filename : string)
    (w : world) : world * option exn :=
  let file_url := (SERVER_URL ++ filename)%string in
  let local_file_path := path_div download_path filename in
  if is_some (nodes w local_file_path)
  then (py_print ("Skipping " ++ filename ++ ", already exists.") w, None)
  else
    let w := py_print ("Downloading " ++ filename ++ "...") w in
    let '(r, w) := requests_get env file_url w in
    match r with
    | NoResponse e | BadStatus e =>
        (py_print ("Error downloading " ++ filename ++ ": " ++ e) w, None)
    | Good b =>
        if creatable env local_file_path then
          let w := create local_file_path (File (join_chunks (chunks_of b))) w in
          match b with
          | Complete _ => (py_print ("Successfully downloaded " ++ filename) w, None)
          | Broken _ e =>
              (py_print ("Error downloading " ++ filename ++ ": " ++ e) w, None)
          end
        else (w, Some (open_error env local_file_path))
    end.

(** Lines 78 to 97: the loop; an exception that is not caught ends it. *)
Fixpoint download_all (env : environment) (download_path : string)
    (links : list string) (w : world) : world * option exn :=
  match links with
  | [] => (w, None)
  | filename :: rest =>
      match download_one env download_path filename w with
      | (w', None) => download_all env download_path rest w'
      | (w', Some e) => (w', Some e)
      end
  end.

(** Lines 28 to 99: the world after the call, and the exception that left
    it, if one did.  Neither [mkdir] (line 39) nor the parse of the page
    (lines 59 to 69) stands in a [try]. *)
Definition download_radar_files_for_date (env : environment) (date_str : string)
    (w : world) : world * option exn :=
  let w := py_print ("--- Starting process for date: " ++ date_str ++ " ---") w in
  let download_path := Path H5_DATADIR in
  match mkdir env download_path w with
  | (w, Some e) => (w, Some e)
  | (w, None) =>
      match filename_date_prefix date_str with
      | None =>
          (py_print ("Error: Invalid date format '" ++ date_str
                     ++ "'. Please use YYYY-MM-DD.") w, None)
      | Some prefix =>
          let w := py_print ("Fetching link list from " ++ SERVER_URL ++ "...") w in
          let '(r, w) := requests_get env SERVER_URL w in
          match r with
          | Good (Complete chunks) =>
              match find_all_a_href (join_chunks chunks) with
              | Raise e => (w, Some e)
              | Ok hrefs =>
                  let pattern := file_pattern prefix in
                  let links := links_to_download pattern hrefs in
                  match links with
                  | [] =>
                      (py_print ("No files found for date " ++ date_str
                                 ++ " with pattern '" ++ pattern ++ "'") w, None)
                  | _ :: _ =>
                      let w := py_print ("Found " ++ digits (Z.of_nat (length links))
                                         ++ " files to potentially download.") w in
                      match download_all env download_path links w with
                      | (w, None) =>
                          (py_print (newline ++ "--- Process finished. ---") w, None)
                      | (w, Some e) => (w, Some e)
                      end
                  end
              end
          | Good (Broken _ e) | NoResponse e | BadStatus e =>
              (py_print ("Error fetching the server page: " ++ e) w, None)
          end
      end
  end.

(** The links a run keeps, read off the response to its first request:
    none when the date is refused, the page does not arrive or the parser
    rejects it. *)
Definition selected_links (env : environment) (date_str : string) (w : world)
    : list string :=
  match filename_date_prefix date_str with
  | Some prefix =>
      match server env (length (requested w)) SERVER_URL with
      | Good (Complete chunks) =>
          match find_all_a_href (join_chunks chunks) with
          | Ok hrefs => links_to_download (file_pattern prefix) hrefs
          | Raise _ => []
          end
      | _ => []
      end
  | None => []
  end.

End Fetcher.

(** *** Sample libraries, a sample server and sample worlds for the fetcher *)

(** Accepts [YYYY-mm-dd], ten characters, with every field in a range that
    all months share. *)
Definition sample_strptime_date (s format : string) : option datetime :=
  if negb (String.eqb format "%Y-%m-%d") then None
  else if negb (Nat.eqb (String.length s) 10) then None
  else if negb (String.eqb (substring 4 1 s) "-" && String.eqb (substring 7 1 s) "-")
  then None
  else
    match field s 0 4, field s 5 2, field s 8 2 with
    | Some y, Some mo, Some d =>
        if (1 <=? y) && (1 <=? mo) && (mo <=? 12) && (1 <=? d) && (d <=? 28)
        then Some {| year := y; month := mo; day := d;
                     hour := 0; minute := 0; second := 0 |}
        else None
    | _, _, _ => None
    end.

Fixpoint zeros (n : nat) : string :=
  match n with
  | O => EmptyString
  | S n' => String "0" (zeros n')
  end.

(** [f"{n:0{width}d}"] for a non-negative [n]. *)
Definition zero_padded (width : nat) (n : Z) : string :=
  (zeros (width - String.length (digits n)) ++ digits n)%string.

(** Knows the format [%Y%m%d] only. *)
Definition sample_strftime (date_obj : datetime) (format : string) : option string :=
  if String.eqb format "%Y%m%d"
  then Some (zero_padded 4 (year date_obj) ++ zero_padded 2 (month date_obj)
             ++ zero_padded 2 (day date_obj))%string
  else None.

Fixpoint split_lines (line s : string) : list string :=
  match s with
  | EmptyString => [line]
  | String c s' =>
      if Ascii.eqb c (ascii_of_nat 10) then line :: split_lines EmptyString s'
      else split_lines (line ++ String c EmptyString) s'
  end.

Fixpoint text_before (stop : ascii) (s : string) : string :=
  match s with
  | EmptyString => EmptyString
  | String c s' => if Ascii.eqb c stop then EmptyString else String c (text_before stop s')
  end.

(** A parser for pages that hold one tag on a line: a line that opens an
    anchor gives its [href], the text between single quotes, or [None] when
    [href] is not its first attribute. *)
Definition href_of_line (line : string) : list (option string) :=
  if prefix "<a href='" line
  then [Some (text_before "'"%char (substring 9 (String.length line) line))]
  else if prefix "<a " line then [None] else [].

Definition sample_find_all_a_href (page : string) : result (list (option string)) :=
  Ok (flat_map href_of_line (split_lines EmptyString page)).

Definition contains (needle s : string) : bool :=
  is_some (String.index 0 needle s).

(** A matcher for the patterns of [file_pattern] over a prefix of digits:
    the text starts with [Composite.] and the digits, and [.h5] occurs
    somewhere after them. *)
Definition sample_re_match (pattern text : string) : bool :=
  let d := substring 11 (String.length pattern - 17) pattern in
  String.eqb pattern ("Composite\." ++ d ++ ".*\.h5")
  && is_some (digits_value 0 d)
  && prefix ("Composite." ++ d) text
  && contains ".h5" (substring (10 + String.length d) (String.length text) text).

(** [str(Path(text))] for a relative path: without the leading [./] and the
    trailing separator. *)
Definition sample_Path (text : string) : string :=
  let s := if prefix "./" text then substring 2 (String.length text) text else text in
  if endswith s "/" then substring 0 (String.length s - 1) s else s.

Definition sample_path_div (dir name : string) : string :=
  if prefix "/" name then name else (dir ++ "/" ++ name)%string.

(** The page of the sample server, as it arrives in two chunks: a link to
    the parent, an anchor without [href], a file of another day and four
    files of 22 May 2024. *)
Definition sample_page : list string :=
  [("<html>" ++ newline
    ++ "<a href='../'>" ++ newline
    ++ "<a name='top'>" ++ newline
    ++ "<a href='Composite.20240521.2350.h5'>" ++ newline
    ++ "<a href='Composite.20240522.0000.h5'>" ++ newline
    ++ "<a href='Composite.2024")%string;
   ("0522.0010.h5'>" ++ newline
    ++ "<a href='Composite.20240522.0020.h5'>" ++ newline
    ++ "<a href='Composite.20240522.0030.h5'>" ++ newline
    ++ "</html>")%string].

(** The sample server: the page; one file that arrives, one whose body
    breaks off after its first chunk, one that is not found; nothing else
    answers.  A path can be created in the download directory only. *)
Definition sample_env : environment :=
  {| server := fun _ url =>
       if String.eqb url SERVER_URL then Good (Complete sample_page)
       else if String.eqb url (SERVER_URL ++ "Composite.20240522.0010.h5")
       then Good (Complete ["HDF"; "5"]%string)
       else if String.eqb url (SERVER_URL ++ "Composite.20240522.0020.h5")
       then Good (Broken ["HD"]%string "Connection broken: IncompleteRead")
       else if String.eqb url (SERVER_URL ++ "Composite.20240522.0030.h5")
       then BadStatus "404 Client Error: Not Found"
       else NoResponse "Connection refused";
     creatable := fun path =>
       String.eqb path "datafiles"
       || (prefix "datafiles/" path
           && negb (contains "/" (substring 10 (String.length path) path)));
     open_error := OSError |}.

(** The sample server beside a disk on which the file of 00:10 cannot be
    opened for writing. *)
Definition readonly_env : environment :=
  {| server := server sample_env;
     creatable := fun path =>
       creatable sample_env path
       && negb (String.eqb path "datafiles/Composite.20240522.0010.h5");
     open_error := OSError |}.

(** The download directory exists and holds the first file of the day. *)
Definition sample_world : world :=
  {| nodes := fun path =>
       if String.eqb path "datafiles" then Some Directory
       else if String.eqb path "datafiles/Composite.20240522.0000.h5"
       then Some (File "old")
       else None;
     requested := [];
     printed := [] |}.

(** Nothing exists yet. *)
Definition empty_world : world :=
  {| nodes := fun _ => None; requested := []; printed := [] |}.

(** A file stands where the download directory should be. *)
Definition blocked_world : world :=
  {| nodes := fun path => if String.eqb path "datafiles" then Some (File "notes") else None;
     requested := [];
     printed := [] |}.

(** A directory in which the second of three grid files lacks its end date. *)
Definition failing_fs : filesystem :=
  {| listdir := fun dir =>
       if String.eqb dir H5_DATADIR
       then Some ["storm.h5"; "broken.h5"; "weak.h5"]%string
       else None;
     h5py_File := fun path =>
       if String.eqb path "./datafiles/storm.h5" then Some sample_file
       else if String.eqb path "./datafiles/broken.h5" then Some file_without_enddate
       else if String.eqb path "./datafiles/weak.h5" then Some weak_file
       else None |}.

Section Extraction.
(** [datetime.strptime(text, format)]: [None] stands for its [ValueError]. *)
Variable strptime : string -> string -> option datetime.
(** [pyproj.CRS(definition)]: [None] stands for its [CRSError]. *)
Variable crs : Type.
Variable CRS : string -> option crs.
(** [Transformer.from_crs(source, target, always_xy=True).transform(lon, lat)]. *)
Variable transform : crs -> crs -> float -> float -> float * float.
(** [f"{x:.2f}"]. *)
Variable format_2f : float -> string.

Definition strptime_or_raise (text format : string) : result datetime :=
  match strptime text format with
  | Some dt => Ok dt
  | None => Raise ValueError
  end.

Definition CRS_or_raise (definition : string) : result crs :=
  match CRS definition with
  | Some c => Ok c
  | None => Raise CRSError
  end.

(** Lines 109 to 137: the attributes, in the order the code reads them. *)
Definition read_metadata (f : H5.file) : result metadata :=
  what_attrs <- getitem WHAT_GROUP_PATH (H5.what_group f) ;;
  date_bytes <- getitem "enddate" (H5.enddate what_attrs) ;;
  date_str <- decode_ascii date_bytes ;;
  time_bytes <- getitem "endtime" (H5.endtime what_attrs) ;;
  time_str <- decode_ascii time_bytes ;;
  how_attrs <- getitem HOW_GROUP_PATH (H5.how_group f) ;;
  let timestamp_str := (date_str ++ time_str)%string in
  dt_object <- strptime_or_raise timestamp_str "%Y%m%d%H%M%S" ;;
  gain <- getitem "gain" (H5.gain what_attrs) ;;
  offset <- getitem "offset" (H5.offset what_attrs) ;;
  nodata_val <- getitem "nodata" (H5.nodata what_attrs) ;;
  undetect_val <- getitem "undetect" (H5.undetect what_attrs) ;;
  end_epoch <- getitem "endepochs" (H5.endepochs how_attrs) ;;
  dt_utc <- fromtimestamp end_epoch ;;
  where_attrs <- getitem WHERE_GROUP_PATH (H5.where_group f) ;;
  projdef_bytes <- getitem "projdef" (H5.projdef where_attrs) ;;
  projdef <- decode_ascii projdef_bytes ;;
  ul_lon <- getitem "UL_lon" (H5.UL_lon where_attrs) ;;
  ul_lat <- getitem "UL_lat" (H5.UL_lat where_attrs) ;;
  x_scale <- getitem "xscale" (H5.xscale where_attrs) ;;
  y_scale <- getitem "yscale" (H5.yscale where_attrs) ;;
  dset <- getitem DATASET_PATH (H5.data f) ;;
  Ok {| gain := gain; offset := offset; nodata_val := nodata_val;
        undetect_val := undetect_val; end_epoch := end_epoch;
        projdef := projdef; ul_lon := ul_lon; ul_lat := ul_lat;
        x_scale := x_scale; y_scale := y_scale; dset := dset |}.

(** Lines 150 to 157: the two quotients, before they are rounded. *)
Definition pixel_quotients (source_crs target_crs : crs) (g : metadata)
    (lat lon : float) : float * float :=
  let '(x_target, y_target) := transform source_crs target_crs lon lat in
  let '(x_ul, y_ul) := transform source_crs target_crs (ul_lon g) (ul_lat g) in
  let col := ((x_target - x_ul) / x_scale g)%float in
  let row := ((y_ul - y_target) / y_scale g)%float in
  (row, col).

(** Lines 139 to 161: the pixel [(row_idx, col_idx)] of a point. *)
Definition resolve (g : metadata) (lat lon : float) : result (Z * Z) :=
  source_crs <- CRS_or_raise "EPSG:4326" ;;
  target_crs <- CRS_or_raise (projdef g) ;;
  let '(row, col) := pixel_quotients source_crs target_crs g lat lon in
  col_idx <- py_round col ;;
  row_idx <- py_round row ;;
  Ok (row_idx, col_idx).

(** Lines 174 to 181: the text and the number of a cell that was read. *)
Definition decode (raw_value : Z) (gain offset nodata_val undetect_val : float)
    : string * float :=
  if (promote raw_value =? nodata_val)%float then (NO_DATA, 0%float)
  else if (promote raw_value =? undetect_val)%float then (UNDETECTED, 0%float)
  else
    let real_dbz := (promote raw_value * gain + offset)%float in
    ((format_2f real_dbz ++ " dBZ")%string, real_dbz).

Definition in_bounds (g : metadata) (row_idx col_idx : Z) : bool :=
  (0 <=? row_idx) && (row_idx <? ysize g) && ((0 <=? col_idx) && (col_idx <? xsize g)).

(** Lines 169 to 185: [realvalue] and [real_dbz] at a pixel. *)
Definition value_at (g : metadata) (row_idx col_idx : Z) : result (string * float) :=
  if in_bounds g row_idx col_idx then
    raw_value <- dset_getitem (dset g) row_idx col_idx ;;
    Ok (decode raw_value (gain g) (offset g) (nodata_val g) (undetect_val g))
  else Ok (NOT_IN_DATA, 0%float).

(** The body of the [with] block, for an open file. *)
Definition extract (f : H5.file) (rawfilename : string) (lat lon : float)
    : result reading :=
  g <- read_metadata f ;;
  ' (row_idx, col_idx) <- resolve g lat lon ;;
  ' (realvalue, real_dbz) <- value_at g row_idx col_idx ;;
  Ok {| epoch := end_epoch g; value := realvalue; dbz := real_dbz;
        filename := rawfilename |}.

Definition get_radar_value_at_coord (fs : filesystem) (h5_file : string)
    (lat lon : float) : result reading :=
  let rawfilename := h5_file in
  let h5_file := os_path_join H5_DATADIR h5_file in
  match h5py_File fs h5_file with
  | Some f => extract f rawfilename lat lon
  | None => Raise (OSError h5_file)
  end.

(** The first loop of [__main__]: one reading for each [.h5] name. *)
Definition parse_all (fs : filesystem) : result (list reading) :=
  match listdir fs H5_DATADIR with
  | Some names =>
      mapM (fun filename => get_radar_value_at_coord fs filename TARGET_LAT TARGET_LON)
           (filter (fun filename => endswith filename ".h5") names)
  | None => Raise (OSError H5_DATADIR)
  end.

(** The sort and the report loop, for a threshold. *)
Definition report_at (threshold : float) (parseddata : list reading) : list reading :=
  filter (fun r => (threshold <=? dbz r)%float) (sort_by epoch parseddata).

(** [__main__]: the readings that are printed; the threshold is 40. *)
Definition main (fs : filesystem) : result (list reading) :=
  parseddata <- parse_all fs ;;
  Ok (report_at 40%float parseddata).

(** What the report is meant to keep: the Measured readings at or above
    the threshold. *)
Definition measured_at_least (threshold : float) (r : reading) : bool :=
  is_measured r && (threshold <=? dbz r)%float.

(** A well-formed grid file: every item the code reads is there, the texts
    are ASCII, the end date and time parse, the epoch is a date, and the
    projection definitions are accepted. *)
Definition well_formed (f : H5.file) : bool :=
  match H5.what_group f, H5.how_group f, H5.where_group f, H5.data f with
  | Some w, Some h, Some wh, Some _ =>
      match H5.enddate w, H5.endtime w, H5.endepochs h, H5.projdef wh with
      | Some date, Some time, Some epoch, Some definition =>
          is_ascii date && is_ascii time
          && is_some (strptime (date ++ time) "%Y%m%d%H%M%S")
          && is_some (H5.gain w) && is_some (H5.offset w)
          && is_some (H5.nodata w) && is_some (H5.undetect w)
          && (-62135596800 <=? epoch) && (epoch <=? 253402300799)
          && is_ascii definition
          && is_some (H5.UL_lon wh) && is_some (H5.UL_lat wh)
          && is_some (H5.xscale wh) && is_some (H5.yscale wh)
          && is_some (CRS "EPSG:4326") && is_some (CRS definition)
      | _, _, _, _ => false
      end
  | _, _, _, _ => false
  end.

(** ** Facts about the helpers *)

(** *** Results *)

Lemma bind_Ok {A B : Type} (r : result A) (k : A -> result B) (b : B) :
  bind r k = Ok b -> exists a, r = Ok a /\ k a = Ok b.
Proof. destruct r as [a|e]; simpl; intros H; [eauto | discriminate]. Qed.

Lemma bind_Raise {A B : Type} (r : result A) (k : A -> result B) (e : exn) :
  bind r k = Raise e -> r = Raise e \/ exists a, r = Ok a /\ k a = Raise e.
Proof.
  destruct r as [a|e']; simpl; intros H; [right; eauto | left].
  injection H as ->. reflexivity.
Qed.

Lemma getitem_Ok {A : Type} (key : string) (entry : option A) (a : A) :
  getitem key entry = Ok a -> entry = Some a.
Proof. destruct entry; simpl; intros H; [injection H as ->; reflexivity | discriminate]. Qed.

Lemma mapM_Ok_Forall2 {A B : Type} (f : A -> result B) (l : list A) (bs : list B) :
  mapM f l = Ok bs -> Forall2 (fun a b => f a = Ok b) l bs.
Proof.
  revert bs; induction l as [|a l IH]; simpl; intros bs H.
  - injection H as <-. constructor.
  - apply bind_Ok in H as (b & Hb & H).
    apply bind_Ok in H as (bs' & Hbs & H).
    injection H as <-. constructor; auto.
Qed.

(** *** Rounding to the nearest integer *)

Lemma pow_pos_positive (p : positive) : 0 < Z.pow_pos 2 p.
Proof. rewrite Z.pow_pos_fold. apply Z.pow_pos_nonneg; lia. Qed.

Lemma round_half_even_scaled (m : Z) (p : positive) :
  2 * Z.abs (round_half_even m (Zneg p) * Z.pow_pos 2 p - m) <= Z.pow_pos 2 p.
Proof.
  unfold round_half_even.
  pose proof (pow_pos_positive p) as Hd.
  set (d := Z.pow_pos 2 p) in *.
  pose proof (Z.div_mod m d ltac:(lia)) as Hdm.
  pose proof (Z.mod_pos_bound m d Hd) as Hr.
  destruct (2 * (m mod d) ?= d) eqn:C.
  - apply Z.compare_eq in C. destruct (Z.even (m / d)); nia.
  - rewrite Z.compare_lt_iff in C. nia.
  - rewrite Z.compare_gt_iff in C. nia.
Qed.

Lemma round_half_even_tie (m : Z) (p : positive) :
  2 * Z.abs (round_half_even m (Zneg p) * Z.pow_pos 2 p - m) = Z.pow_pos 2 p ->
  Z.even (round_half_even m (Zneg p)) = true.
Proof.
  unfold round_half_even.
  pose proof (pow_pos_positive p) as Hd.
  set (d := Z.pow_pos 2 p) in *.
  pose proof (Z.div_mod m d ltac:(lia)) as Hdm.
  pose proof (Z.mod_pos_bound m d Hd) as Hr.
  destruct (2 * (m mod d) ?= d) eqn:C.
  - intros _. destruct (Z.even (m / d)) eqn:E; [exact E|].
    rewrite Z.even_add, E. reflexivity.
  - rewrite Z.compare_lt_iff in C. intros H. nia.
  - rewrite Z.compare_gt_iff in C. intros H. nia.
Qed.

Lemma Zpos_pow2 (p : positive) : Zpos (Pos.pow 2 p) = Z.pow_pos 2 p.
Proof. rewrite Pos2Z.inj_pow. reflexivity. Qed.

Lemma Qdist_scaled (z m : Z) (p : positive) :
  (Qabs (inject_Z z - Qmake m (Pos.pow 2 p)) <= 1 # 2)%Q <->
  2 * Z.abs (z * Z.pow_pos 2 p - m) <= Z.pow_pos 2 p.
Proof.
  unfold Qle, Qabs, Qminus, Qplus, Qopp, inject_Z; cbn [Qnum Qden].
  rewrite Pos.mul_1_l, Zpos_pow2. lia.
Qed.

Lemma Qdist_tie_scaled (z m : Z) (p : positive) :
  (Qabs (inject_Z z - Qmake m (Pos.pow 2 p)) == 1 # 2)%Q <->
  2 * Z.abs (z * Z.pow_pos 2 p - m) = Z.pow_pos 2 p.
Proof.
  unfold Qeq, Qabs, Qminus, Qplus, Qopp, inject_Z; cbn [Qnum Qden].
  rewrite Pos.mul_1_l, Zpos_pow2. lia.
Qed.

Lemma Qdist_same (z : Z) :
  (Qabs (inject_Z z - inject_Z z) <= 1 # 2)%Q
  /\ ((Qabs (inject_Z z - inject_Z z) == 1 # 2)%Q -> Z.even z = true).
Proof.
  unfold Qle, Qeq, Qabs, Qminus, Qplus, Qopp, inject_Z; cbn [Qnum Qden].
  split; [lia | intros H; exfalso; lia].
Qed.

(** [py_round] returns exactly on the floats that stand for a number, and
    then the nearest integer, the even one of two that are equally near. *)
Lemma py_round_nearest (x : float) (q : Q) :
  float_value x = Some q ->
  exists z, py_round x = Ok z
            /\ (Qabs (inject_Z z - q) <= 1 # 2)%Q
            /\ ((Qabs (inject_Z z - q) == 1 # 2)%Q -> Z.even z = true).
Proof.
  unfold float_value, py_round.
  destruct (Prim2SF x) as [s|s| |s m e]; try discriminate.
  - intros H; injection H as <-. exists 0. split; [reflexivity|].
    apply (Qdist_same 0).
  - destruct e as [|p|p]; intros H; injection H as <-;
      eexists; (split; [reflexivity|]).
    + apply (Qdist_same (cond_Zopp s (Zpos m) * 2 ^ 0)).
    + apply (Qdist_same (cond_Zopp s (Zpos m) * 2 ^ Zpos p)).
    + split.
      * apply Qdist_scaled, round_half_even_scaled.
      * intros H. apply Qdist_tie_scaled in H. apply round_half_even_tie, H.
Qed.

(** *** Binary64 facts *)

Lemma finite_value (x : float) : finite x = true <-> exists q, float_value x = Some q.
Proof.
  unfold finite, float_value.
  destruct (Prim2SF x) as [s|s| |s m e]; simpl; split;
    try (intros [q H]; discriminate); try discriminate;
    try reflexivity; intros _; eauto.
  destruct e; eauto.
Qed.

Lemma sub_diag (x : float) :
  finite x = true -> Prim2SF (x - x)%float = S754_zero false.
Proof.
  unfold finite. rewrite sub_spec.
  destruct (Prim2SF x) as [s|s| |s m e]; try discriminate; intros _.
  - destruct s; reflexivity.
  - unfold SF64sub, SFsub. rewrite Z.sub_diag. reflexivity.
Qed.

Lemma div_zero_l (x y : float) (s : bool) :
  Prim2SF x = S754_zero s -> divides_zero y = true ->
  exists s', Prim2SF (x / y)%float = S754_zero s'.
Proof.
  unfold divides_zero. intros Hx. rewrite div_spec, Hx.
  destruct (Prim2SF y) as [sy|sy| |sy m e]; try discriminate; intros _;
    simpl; eauto.
Qed.

Lemma py_round_origin (x scale : float) :
  finite x = true -> divides_zero scale = true ->
  py_round ((x - x) / scale)%float = Ok 0.
Proof.
  intros Hx Hs.
  destruct (div_zero_l (x - x)%float scale false (sub_diag x Hx) Hs) as [s' H].
  unfold py_round. rewrite H. reflexivity.
Qed.











(** *** Sorting by a key *)

Section SortFacts.
Context {A : Type} (key : A -> Z).

Lemma insert_by_perm (x : A) (l : list A) :
  Permutation (insert_by key x l) (x :: l).
Proof.
  induction l as [|y l IH]; simpl; [reflexivity|].
  destruct (key x <=? key y); [reflexivity|].
  rewrite IH. apply perm_swap.
Qed.

Lemma sort_by_perm (l : list A) : Permutation (sort_by key l) l.
Proof.
  induction l as [|x l IH]; simpl; [reflexivity|].
  rewrite insert_by_perm. apply perm_skip, IH.
Qed.

Lemma insert_by_sorted (x : A) (l : list A) :
  StronglySorted (key_le key) l -> StronglySorted (key_le key) (insert_by key x l).
Proof.
  induction 1 as [|y l Hs IH Hy]; simpl.
  - repeat constructor.
  - destruct (key x <=? key y) eqn:C.
    + apply Z.leb_le in C. constructor; [constructor; assumption|].
      constructor; [exact C|].
      eapply Forall_impl; [|exact Hy].
      unfold key_le in *; intros; lia.
    + apply Z.leb_gt in C. constructor; [exact IH|].
      eapply Permutation_Forall; [symmetry; apply insert_by_perm|].
      constructor; [unfold key_le in *; lia | exact Hy].
Qed.

Lemma sort_by_sorted (l : list A) : StronglySorted (key_le key) (sort_by key l).
Proof.
  induction l as [|x l IH]; simpl; [constructor | apply insert_by_sorted, IH].
Qed.

Lemma filter_sorted (keep : A -> bool) (l : list A) :
  StronglySorted (key_le key) l -> StronglySorted (key_le key) (filter keep l).
Proof.
  induction 1 as [|y l Hs IH Hy]; simpl; [constructor|].
  destruct (keep y); [|exact IH].
  constructor; [exact IH|].
  rewrite Forall_forall in *. intros z Hz.
  apply filter_In in Hz as [Hz _]. auto.
Qed.

Lemma filter_perm (keep : A -> bool) (l l' : list A) :
  Permutation l l' -> Permutation (filter keep l) (filter keep l').
Proof.
  induction 1 as [|x l l' _ IH|x y l|l l' l'' _ IH1 _ IH2]; simpl.
  - reflexivity.
  - destruct (keep x); [apply perm_skip|]; exact IH.
  - destruct (keep x), (keep y); try reflexivity. apply perm_swap.
  - etransitivity; eassumption.
Qed.

(** The sort is stable: readings of one key keep their order. *)
Lemma insert_by_stable (k : Z) (x : A) (l : list A) :
  filter (fun a => key a =? k) (insert_by key x l)
  = filter (fun a => key a =? k) (x :: l).
Proof.
  induction l as [|y l IH]; [reflexivity|].
  cbn [insert_by]. destruct (key x <=? key y) eqn:C; [reflexivity|].
  apply Z.leb_gt in C.
  cbn [filter] in *. rewrite IH.
  destruct (key x =? k) eqn:Ex, (key y =? k) eqn:Ey; try reflexivity.
  apply Z.eqb_eq in Ex, Ey. lia.
Qed.

Lemma sort_by_stable (k : Z) (l : list A) :
  filter (fun a => key a =? k) (sort_by key l) = filter (fun a => key a =? k) l.
Proof.
  induction l as [|x l IH]; [reflexivity|].
  cbn [sort_by fold_right]. fold (sort_by key l).
  rewrite insert_by_stable. cbn [filter]. rewrite IH. reflexivity.
Qed.
End SortFacts.

(** *** Texts and categories *)

Lemma last_char_app (s t : string) :
  t <> EmptyString -> last_char (s ++ t) = last_char t.
Proof.
  intros Ht. induction s as [|c s IH]; [reflexivity|].
  cbn [append last_char]. rewrite IH.
  destruct (s ++ t)%string eqn:E; [|reflexivity].
  destruct s; [simpl in E; contradiction | discriminate].
Qed.

Lemma dBZ_text_is_measured (s : string) : category_of (s ++ " dBZ") = Measured.
Proof.
  assert (Hlast : last_char (s ++ " dBZ") = Some "Z"%char)
    by (rewrite last_char_app; [reflexivity | discriminate]).
  unfold category_of.
  destruct (String.eqb_spec (s ++ " dBZ") NOT_IN_DATA) as [E|_];
    [rewrite E in Hlast; discriminate|].
  destruct (String.eqb_spec (s ++ " dBZ") NO_DATA) as [E|_];
    [rewrite E in Hlast; discriminate|].
  destruct (String.eqb_spec (s ++ " dBZ") UNDETECTED) as [E|_];
    [rewrite E in Hlast; discriminate|].
  reflexivity.
Qed.

(** *** The steps of the extraction *)

Lemma decode_cases (raw_value : Z) (gain offset nodata_val undetect_val : float) :
  let cell := promote raw_value in
  decode raw_value gain offset nodata_val undetect_val
  = if (cell =? nodata_val)%float then (NO_DATA, 0%float)
    else if (cell =? undetect_val)%float then (UNDETECTED, 0%float)
    else ((format_2f (cell * gain + offset) ++ " dBZ")%string,
          (cell * gain + offset)%float).
Proof. reflexivity. Qed.

Lemma decode_not_measured (raw_value : Z) (gain offset nodata_val undetect_val : float) :
  let d := decode raw_value gain offset nodata_val undetect_val in
  category_of (fst d) <> Measured -> snd d = 0%float.
Proof.
  cbv zeta. rewrite decode_cases.
  destruct (promote raw_value =? nodata_val)%float; [reflexivity|].
  destruct (promote raw_value =? undetect_val)%float; [reflexivity|].
  cbn [fst snd]. rewrite dBZ_text_is_measured. contradiction.
Qed.

Lemma in_bounds_getitem (g : metadata) (row_idx col_idx : Z) :
  in_bounds g row_idx col_idx = true ->
  dset_getitem (dset g) row_idx col_idx
  = Ok (H5.cell (dset g) (Z.to_nat row_idx) (Z.to_nat col_idx)).
Proof.
  unfold in_bounds, ysize, xsize, dset_getitem, normalize_index.
  intros H. apply andb_prop in H as [Hr Hc].
  apply andb_prop in Hr as [Hr0 Hr1]. apply andb_prop in Hc as [Hc0 Hc1].
  assert (Er : (row_idx <? 0) = false) by lia.
  assert (Ec : (col_idx <? 0) = false) by lia.
  rewrite Er, Ec, Hr0, Hr1, Hc0, Hc1. reflexivity.
Qed.

(** The row just below the last one is outside the grid. *)
Lemma row_at_ysize_out_of_bounds (g : metadata) (col_idx : Z) :
  in_bounds g (ysize g) col_idx = false.
Proof. unfold in_bounds. rewrite Z.ltb_irrefl, andb_false_r. reflexivity. Qed.

Lemma value_at_cases (g : metadata) (row_idx col_idx : Z) :
  value_at g row_idx col_idx
  = Ok (if in_bounds g row_idx col_idx
        then decode (H5.cell (dset g) (Z.to_nat row_idx) (Z.to_nat col_idx))
                    (gain g) (offset g) (nodata_val g) (undetect_val g)
        else (NOT_IN_DATA, 0%float)).
Proof.
  unfold value_at. destruct (in_bounds g row_idx col_idx) eqn:B; [|reflexivity].
  rewrite in_bounds_getitem by exact B. reflexivity.
Qed.

Lemma value_at_not_measured (g : metadata) (row_idx col_idx : Z) (text : string) (number : float) :
  value_at g row_idx col_idx = Ok (text, number) ->
  category_of text <> Measured -> number = 0%float.
Proof.
  rewrite value_at_cases. intros H Hc. injection H as H.
  destruct (in_bounds g row_idx col_idx).
  - pose proof (decode_not_measured
                  (H5.cell (dset g) (Z.to_nat row_idx) (Z.to_nat col_idx))
                  (gain g) (offset g) (nodata_val g) (undetect_val g)) as Hd.
    cbv zeta in Hd. rewrite H in Hd. apply Hd, Hc.
  - injection H as _ <-. reflexivity.
Qed.

(** What a successful extraction went through. *)
Lemma extract_Ok (f : H5.file) (rawfilename : string) (lat lon : float) (r : reading) :
  extract f rawfilename lat lon = Ok r ->
  exists g row_idx col_idx,
    read_metadata f = Ok g
    /\ resolve g lat lon = Ok (row_idx, col_idx)
    /\ value_at g row_idx col_idx = Ok (value r, dbz r)
    /\ epoch r = end_epoch g
    /\ filename r = rawfilename.
Proof.
  unfold extract. intros H.
  apply bind_Ok in H as (g & Hg & H).
  apply bind_Ok in H as ([row_idx col_idx] & Hr & H).
  apply bind_Ok in H as ([text number] & Hv & H).
  injection H as <-. exists g, row_idx, col_idx. repeat split; assumption.
Qed.

Lemma extract_steps (f : H5.file) (rawfilename : string) (lat lon : float)
    (g : metadata) (row_idx col_idx : Z) :
  read_metadata f = Ok g ->
  resolve g lat lon = Ok (row_idx, col_idx) ->
  exists text number,
    value_at g row_idx col_idx = Ok (text, number)
    /\ extract f rawfilename lat lon
       = Ok {| epoch := end_epoch g; value := text; dbz := number;
               filename := rawfilename |}.
Proof.
  intros Hg Hr. unfold extract. rewrite Hg. cbn [bind]. rewrite Hr. cbn [bind].
  rewrite value_at_cases. cbn [bind].
  destruct (if in_bounds g row_idx col_idx then _ else _) as [text number] eqn:E.
  exists text, number. split; reflexivity.
Qed.

Lemma extract_not_measured (f : H5.file) (rawfilename : string) (lat lon : float) (r : reading) :
  extract f rawfilename lat lon = Ok r -> is_measured r = false -> dbz r = 0%float.
Proof.
  intros H Hm. apply extract_Ok in H as (g & row_idx & col_idx & _ & _ & Hv & _).
  eapply value_at_not_measured; [exact Hv|].
  unfold is_measured in Hm. intros E. rewrite E in Hm. discriminate.
Qed.

Lemma get_radar_value_at_coord_Ok (fs : filesystem) (h5_file : string)
    (lat lon : float) (r : reading) :
  get_radar_value_at_coord fs h5_file lat lon = Ok r ->
  exists f, h5py_File fs (os_path_join H5_DATADIR h5_file) = Some f
            /\ extract f h5_file lat lon = Ok r.
Proof.
  unfold get_radar_value_at_coord.
  destruct (h5py_File fs (os_path_join H5_DATADIR h5_file)) as [f|];
    [eauto | discriminate].
Qed.

Lemma parse_all_readings (fs : filesystem) (parseddata : list reading) :
  parse_all fs = Ok parseddata ->
  Forall (fun r => exists f, extract f (filename r) TARGET_LAT TARGET_LON = Ok r)
         parseddata.
Proof.
  unfold parse_all. destruct (listdir fs H5_DATADIR) as [names|]; [|discriminate].
  intros H. apply mapM_Ok_Forall2 in H.
  induction H as [|name r names' rs Hr _ IH]; constructor; [|exact IH].
  apply get_radar_value_at_coord_Ok in Hr as (f & _ & Hf).
  exists f. pose proof Hf as Hf'.
  apply extract_Ok in Hf' as (_ & _ & _ & _ & _ & _ & _ & ->). exact Hf.
Qed.

Lemma parse_all_not_measured (fs : filesystem) (parseddata : list reading) :
  parse_all fs = Ok parseddata ->
  Forall (fun r => is_measured r = false -> dbz r = 0%float) parseddata.
Proof.
  intros H. apply parse_all_readings in H.
  eapply Forall_impl; [|exact H].
  intros r [f Hf]. eapply extract_not_measured, Hf.
Qed.

(** ** The value decoder *)


(** C9. A reading that the extractor returns with a category other than
    Measured has the number 0.0 exactly; and a Measured cell can decode to
    0.0 as well (raw 64 at gain 0.5 and offset -32), so the number alone
    does not tell the cases apart. *)
Theorem not_measured_is_zero :
  (forall (f : H5.file) (rawfilename : string) (lat lon : float) (r : reading),
      extract f rawfilename lat lon = Ok r ->
      category_of (value r) <> Measured -> dbz r = 0%float)
  /\ (let d := decode 64 0.5%float (-32)%float 255%float 0%float in
      category_of (fst d) = Measured /\ snd d = 0%float).
Proof.
  split.
  - intros f rawfilename lat lon r H Hc. eapply extract_not_measured; [exact H|].
    unfold is_measured. destruct (category_of (value r)); try reflexivity.
    contradiction.
  - cbv zeta. split; [|reflexivity].
    rewrite decode_cases. cbv zeta.
    replace (promote 64 =? 255)%float with false by reflexivity.
    replace (promote 64 =? 0)%float with false by reflexivity.
    apply dBZ_text_is_measured.
Qed.

(** ** The batch report *)

Lemma report_at_In (threshold : float) (parseddata : list reading) (r : reading) :
  In r (report_at threshold parseddata)
  <-> In r parseddata /\ (threshold <=? dbz r)%float = true.
Proof.
  unfold report_at. rewrite filter_In.
  split; intros [H1 H2]; (split; [|exact H2]).
  - eapply Permutation_in; [apply sort_by_perm | exact H1].
  - eapply Permutation_in; [symmetry; apply sort_by_perm | exact H1].
Qed.

Lemma report_at_filter (threshold : float) (parseddata : list reading) :
  (threshold <=? 0)%float = false ->
  Forall (fun r => is_measured r = false -> dbz r = 0%float) parseddata ->
  report_at threshold parseddata
  = filter (measured_at_least threshold) (sort_by epoch parseddata).
Proof.
  intros Ht Hz. unfold report_at. apply filter_ext_in.
  intros r Hr. unfold measured_at_least.
  destruct (is_measured r) eqn:M; [reflexivity|].
  rewrite Forall_forall in Hz. rewrite (Hz r), Ht; [reflexivity| |exact M].
  eapply Permutation_in; [apply sort_by_perm | exact Hr].
Qed.

(** C3. The program has one threshold, the constant 40 of line 203.  For
    every set of grid files that are all read, the report of the program
    holds exactly the readings that are Measured and whose number is at
    least 40, each as often as the files yield it: it is the sorted list of
    the readings filtered by that test, hence a permutation of the kept
    readings; every entry is Measured with a number of at least 40, and
    every Measured reading with a number of at least 40 is an entry.  The
    report loop tests the number only; the readings that are not Measured
    carry 0.0 and so fail the test. *)
Theorem report_keeps_measured_above (fs : filesystem) (parseddata : list reading) :
  parse_all fs = Ok parseddata ->
  exists report,
    main fs = Ok report
    /\ report = filter (measured_at_least 40%float) (sort_by epoch parseddata)
    /\ Permutation report (filter (measured_at_least 40%float) parseddata)
    /\ Forall (fun r => category_of (value r) = Measured
                        /\ (40 <=? dbz r)%float = true)
              report
    /\ forall r, In r parseddata -> category_of (value r) = Measured ->
                 (40 <=? dbz r)%float = true -> In r report.
Proof.
  intros Hp.
  assert (E : report_at 40%float parseddata
              = filter (measured_at_least 40%float) (sort_by epoch parseddata))
    by (apply report_at_filter;
        [reflexivity | exact (parse_all_not_measured fs parseddata Hp)]).
  exists (report_at 40%float parseddata).
  split; [unfold main; rewrite Hp; reflexivity|].
  split; [exact E|]. split; [|split].
  - rewrite E. apply filter_perm, sort_by_perm.
  - rewrite E, Forall_forall. intros r Hr. apply filter_In in Hr as [_ Hr].
    unfold measured_at_least, is_measured in Hr.
    apply andb_prop in Hr as [Hm Hl]. split; [|exact Hl].
    destruct (category_of (value r)); try discriminate. reflexivity.
  - intros r Hin _ Hl. apply report_at_In. auto.
Qed.

(** C7. The entries of the report never decrease in timestamp, whatever
    the order in which the directory lists the files: for every list of
    readings and every threshold, hence for the report of [main]; and two
    orders of the same readings give reports with the same entries. *)
Theorem report_sorted_by_epoch :
  (forall (threshold : float) (parseddata : list reading),
      StronglySorted (key_le epoch) (report_at threshold parseddata))
  /\ (forall (fs : filesystem) (report : list reading),
        main fs = Ok report -> StronglySorted (key_le epoch) report)
  /\ (forall (threshold : float) (parseddata parseddata' : list reading),
        Permutation parseddata parseddata' ->
        Permutation (report_at threshold parseddata)
                    (report_at threshold parseddata')).
Proof.
  assert (H : forall threshold parseddata,
             StronglySorted (key_le epoch) (report_at threshold parseddata))
    by (intros; apply filter_sorted, sort_by_sorted).
  split; [exact H|]. split.
  - intros fs report Hm. unfold main in Hm.
    apply bind_Ok in Hm as (parseddata & _ & Hm). injection Hm as <-. apply H.
  - intros threshold parseddata parseddata' Hperm. unfold report_at.
    apply filter_perm.
    rewrite (sort_by_perm epoch parseddata), (sort_by_perm epoch parseddata').
    exact Hperm.
Qed.

(** C4. When the pixel of the target lies outside the grid, the extractor
    raises nothing and returns the reading "Not in data" with the number
    0.0; and no reading of that category is ever printed by [main]. *)
Theorem out_of_grid_is_not_in_data (f : H5.file) (rawfilename : string)
    (lat lon : float) (g : metadata) (row_idx col_idx : Z) :
  read_metadata f = Ok g ->
  resolve g lat lon = Ok (row_idx, col_idx) ->
  in_bounds g row_idx col_idx = false ->
  extract f rawfilename lat lon
  = Ok {| epoch := end_epoch g; value := NOT_IN_DATA; dbz := 0%float;
          filename := rawfilename |}
  /\ category_of NOT_IN_DATA = NotInData
  /\ forall (fs : filesystem) (report : list reading) (r : reading),
       main fs = Ok report -> In r report -> category_of (value r) <> NotInData.
Proof.
  intros Hg Hr Hb. split; [|split].
  - destruct (extract_steps f rawfilename lat lon g row_idx col_idx Hg Hr)
      as (text & number & Hv & ->).
    rewrite value_at_cases, Hb in Hv. injection Hv as <- <-. reflexivity.
  - reflexivity.
  - intros fs report r Hm Hin Hc. unfold main in Hm.
    apply bind_Ok in Hm as (parseddata & Hp & Hm). injection Hm as <-.
    apply report_at_In in Hin as [Hin Hl].
    pose proof (parse_all_not_measured fs parseddata Hp) as Hz.
    rewrite Forall_forall in Hz. specialize (Hz r Hin).
    unfold is_measured in Hz. rewrite Hc in Hz.
    rewrite (Hz eq_refl) in Hl. discriminate Hl.
Qed.

(** ** The timestamp *)

Lemma read_metadata_epoch (f : H5.file) (g : metadata) :
  read_metadata f = Ok g ->
  exists how_attrs,
    H5.how_group f = Some how_attrs /\ H5.endepochs how_attrs = Some (end_epoch g).
Proof.
  unfold read_metadata. intros H.
  repeat (apply bind_Ok in H as (? & ? & H)).
  injection H as <-. cbn [end_epoch].
  repeat match goal with
         | E : getitem _ _ = Ok _ |- _ => apply getitem_Ok in E
         end.
  eauto.
Qed.

Lemma read_metadata_with_end_text (date time : option string) (f : H5.file)
    (g g' : metadata) :
  read_metadata f = Ok g ->
  read_metadata (with_end_text date time f) = Ok g' -> g' = g.
Proof.
  unfold read_metadata, with_end_text. cbn [H5.what_group H5.how_group H5.where_group H5.data].
  destruct (H5.what_group f) as [w|]; [|discriminate].
  cbn [getitem bind H5.enddate H5.endtime H5.gain H5.offset H5.nodata H5.undetect].
  intros H H'.
  repeat (apply bind_Ok in H as (? & ? & H)).
  repeat (apply bind_Ok in H' as (? & ? & H')).
  injection H as <-. injection H' as <-.
  repeat match goal with
         | E : getitem _ _ = Ok _ |- _ => apply getitem_Ok in E
         end.
  repeat match goal with
         | E : ?o = Some ?a, E' : ?o = Some ?b |- _ =>
             rewrite E in E'; injection E' as <-
         end.
  repeat match goal with
         | E : decode_ascii ?b = Ok ?a, E' : decode_ascii ?b = Ok ?c |- _ =>
             rewrite E in E'; injection E' as <-
         end.
  reflexivity.
Qed.

(** C5. The timestamp of a returned reading is the [endepochs] attribute
    of the file that was opened; and the textual end date and end time do
    not enter it: with any other texts in their place, an extraction that
    returns gives the same reading. *)
Theorem timestamp_is_endepochs (fs : filesystem) (h5_file : string)
    (lat lon : float) (r : reading) :
  get_radar_value_at_coord fs h5_file lat lon = Ok r ->
  exists (f : H5.file) (how_attrs : H5.how_attrs),
    h5py_File fs (os_path_join H5_DATADIR h5_file) = Some f
    /\ H5.how_group f = Some how_attrs
    /\ H5.endepochs how_attrs = Some (epoch r)
    /\ forall (date time : option string) (r' : reading),
         extract (with_end_text date time f) h5_file lat lon = Ok r' -> r' = r.
Proof.
  intros H. apply get_radar_value_at_coord_Ok in H as (f & Hf & H).
  pose proof H as H0.
  apply extract_Ok in H0 as (g & row_idx & col_idx & Hg & Hr & Hv & He & Hn).
  destruct (read_metadata_epoch f g Hg) as (how_attrs & Hh & Hepoch).
  exists f, how_attrs. rewrite He. repeat split; try assumption.
  intros date time r' H'. unfold extract in H'.
  apply bind_Ok in H' as (g' & Hg' & H').
  rewrite (read_metadata_with_end_text date time f g g' Hg Hg') in H'.
  unfold extract in H. rewrite Hg in H. cbn [bind] in H.
  rewrite H in H'. injection H' as <-. reflexivity.
Qed.

(** ** The coordinate resolver *)

Lemma py_round_Raise (x : float) (e : exn) :
  py_round x = Raise e -> finite x = false /\ (e = ValueError \/ e = OverflowError).
Proof.
  unfold py_round, finite.
  destruct (Prim2SF x); intros H; try discriminate; injection H as <-; auto.
Qed.

Lemma py_round_finite (x : float) :
  finite x = true <-> exists z, py_round x = Ok z.
Proof.
  unfold py_round, finite.
  destruct (Prim2SF x); split; try discriminate; eauto;
    intros [z H]; discriminate.
Qed.

Lemma resolve_cases (g : metadata) (lat lon : float) (source_crs target_crs : crs) :
  CRS "EPSG:4326" = Some source_crs ->
  CRS (projdef g) = Some target_crs ->
  resolve g lat lon
  = (col_idx <- py_round (snd (pixel_quotients source_crs target_crs g lat lon)) ;;
     row_idx <- py_round (fst (pixel_quotients source_crs target_crs g lat lon)) ;;
     Ok (row_idx, col_idx)).
Proof.
  intros Hs Ht. unfold resolve, CRS_or_raise. rewrite Hs, Ht. cbn [bind].
  destruct (pixel_quotients source_crs target_crs g lat lon). reflexivity.
Qed.

Lemma pixel_quotients_cases (source_crs target_crs : crs) (g : metadata)
    (lat lon x_target y_target x_ul y_ul : float) :
  transform source_crs target_crs lon lat = (x_target, y_target) ->
  transform source_crs target_crs (ul_lon g) (ul_lat g) = (x_ul, y_ul) ->
  pixel_quotients source_crs target_crs g lat lon
  = (((y_ul - y_target) / y_scale g)%float, ((x_target - x_ul) / x_scale g)%float).
Proof. intros Ht Hu. unfold pixel_quotients. rewrite Ht, Hu. reflexivity. Qed.

Lemma resolve_Raise (g : metadata) (lat lon : float) (e : exn) :
  resolve g lat lon = Raise e ->
  e = CRSError \/ e = ValueError \/ e = OverflowError.
Proof.
  unfold resolve, CRS_or_raise.
  destruct (CRS "EPSG:4326") as [source_crs|]; cbn [bind];
    [|intros H; injection H as <-; auto].
  destruct (CRS (projdef g)) as [target_crs|]; cbn [bind];
    [|intros H; injection H as <-; auto].
  destruct (pixel_quotients source_crs target_crs g lat lon) as [row col].
  intros H.
  apply bind_Raise in H as [H | (col_idx & _ & H)];
    [apply py_round_Raise in H as [_ H]; tauto|].
  apply bind_Raise in H as [H | (row_idx & _ & H)];
    [apply py_round_Raise in H as [_ H]; tauto | discriminate].
Qed.

(** C2, as the code has it.  For a file whose projection is accepted, the
    resolver transforms the target and the upper-left corner by that
    projection, forms [col = (x_target - x_ul) / x_scale] and
    [row = (y_ul - y_target) / y_scale] (the row axis is inverted), and
    rounds the column and then the row.  When both quotients are numbers it
    returns the integers nearest to them (ties go to the even integer), as a
    pair of signed integers on which no range check is made.  When a
    quotient is an infinity or [nan] no pair is returned: [round] raises an
    [OverflowError] or a [ValueError]. *)
Theorem resolve_rounds_quotients (g : metadata) (lat lon : float)
    (source_crs target_crs : crs) (x_target y_target x_ul y_ul : float) :
  CRS "EPSG:4326" = Some source_crs ->
  CRS (projdef g) = Some target_crs ->
  transform source_crs target_crs lon lat = (x_target, y_target) ->
  transform source_crs target_crs (ul_lon g) (ul_lat g) = (x_ul, y_ul) ->
  let col := ((x_target - x_ul) / x_scale g)%float in
  let row := ((y_ul - y_target) / y_scale g)%float in
  resolve g lat lon
  = (col_idx <- py_round col ;; row_idx <- py_round row ;; Ok (row_idx, col_idx))
  /\ (forall qcol qrow : Q,
        float_value col = Some qcol ->
        float_value row = Some qrow ->
        exists row_idx col_idx : Z,
          resolve g lat lon = Ok (row_idx, col_idx)
          /\ nearest_even col_idx qcol
          /\ nearest_even row_idx qrow)
  /\ (finite col = false \/ finite row = false ->
      exists e, resolve g lat lon = Raise e
                /\ (e = ValueError \/ e = OverflowError)).
Proof.
  intros Hs Ht Htarget Hul. cbv zeta.
  rewrite (resolve_cases g lat lon source_crs target_crs Hs Ht).
  rewrite (pixel_quotients_cases _ _ _ _ _ _ _ _ _ Htarget Hul). cbn [fst snd].
  split; [reflexivity|]. split.
  - intros qcol qrow Hcol Hrow.
    destruct (py_round_nearest _ _ Hcol) as (col_idx & -> & Hc).
    destruct (py_round_nearest _ _ Hrow) as (row_idx & -> & Hr).
    exists row_idx, col_idx. cbn [bind]. repeat split; solve [apply Hc | apply Hr].
  - intros Hnot.
    destruct (py_round ((x_target - x_ul) / x_scale g)) as [col_idx|e] eqn:Ecol;
      cbn [bind].
    + destruct (py_round ((y_ul - y_target) / y_scale g)) as [row_idx|e] eqn:Erow;
        cbn [bind].
      * destruct Hnot as [Hnot | Hnot].
        -- assert (Hf : finite ((x_target - x_ul) / x_scale g) = true)
             by (apply py_round_finite; eauto).
           congruence.
        -- assert (Hf : finite ((y_ul - y_target) / y_scale g) = true)
             by (apply py_round_finite; eauto).
           congruence.
      * exists e. split; [reflexivity|]. apply (py_round_Raise _ _ Erow).
    + exists e. split; [reflexivity|]. apply (py_round_Raise _ _ Ecol).
Qed.

(** C8, as the code has it.  When the upper-left corner projects to finite
    coordinates and neither scale is zero or [nan], the stored upper-left
    corner resolves to the pixel (0, 0): both quotients are zeros before
    they are rounded. *)
Theorem corner_resolves_to_origin (g : metadata) (source_crs target_crs : crs)
    (x_ul y_ul : float) :
  CRS "EPSG:4326" = Some source_crs ->
  CRS (projdef g) = Some target_crs ->
  transform source_crs target_crs (ul_lon g) (ul_lat g) = (x_ul, y_ul) ->
  finite x_ul = true -> finite y_ul = true ->
  divides_zero (x_scale g) = true -> divides_zero (y_scale g) = true ->
  resolve g (ul_lat g) (ul_lon g) = Ok (0, 0).
Proof.
  intros Hs Ht Hul Hx Hy Hxs Hys.
  rewrite (resolve_cases g _ _ source_crs target_crs Hs Ht).
  rewrite (pixel_quotients_cases _ _ _ _ _ _ _ _ _ Hul Hul). cbn [fst snd].
  rewrite (py_round_origin x_ul (x_scale g) Hx Hxs).
  rewrite (py_round_origin y_ul (y_scale g) Hy Hys).
  reflexivity.
Qed.

(** ** Reading the metadata *)

Lemma getitem_Raise {A : Type} (key : string) (entry : option A) (e : exn) :
  getitem key entry = Raise e -> entry = None /\ e = KeyError key.
Proof. destruct entry; simpl; intros H; [discriminate | injection H as <-; auto]. Qed.

Lemma decode_ascii_Raise (b : string) (e : exn) :
  decode_ascii b = Raise e -> e = UnicodeDecodeError.
Proof.
  unfold decode_ascii. destruct (is_ascii b); intros H;
    [discriminate | injection H as <-; reflexivity].
Qed.

Lemma strptime_or_raise_Raise (text format : string) (e : exn) :
  strptime_or_raise text format = Raise e -> e = ValueError.
Proof.
  unfold strptime_or_raise. destruct (strptime text format); intros H;
    [discriminate | injection H as <-; reflexivity].
Qed.

Lemma fromtimestamp_Raise (t : Z) (e : exn) :
  fromtimestamp t = Raise e -> e = DateRangeError.
Proof.
  unfold fromtimestamp. destruct (_ && _); intros H;
    [discriminate | injection H as <-; reflexivity].
Qed.

(** The exceptions of the metadata block. *)
Lemma read_metadata_Raise (f : H5.file) (e : exn) :
  read_metadata f = Raise e ->
  (exists key, e = KeyError key) \/ e = UnicodeDecodeError
  \/ e = ValueError \/ e = DateRangeError.
Proof.
  unfold read_metadata. intros H.
  repeat (apply bind_Raise in H as [H | (? & _ & H)];
          [ first [ apply getitem_Raise in H as [_ ->]; eauto
                  | apply decode_ascii_Raise in H as ->; auto
                  | apply strptime_or_raise_Raise in H as ->; auto
                  | apply fromtimestamp_Raise in H as ->; auto ] | ]).
  discriminate.
Qed.

Lemma read_metadata_Ok_present (f : H5.file) (g : metadata) :
  read_metadata f = Ok g -> read_items_present f = true.
Proof.
  unfold read_metadata. intros H.
  repeat (apply bind_Ok in H as (? & ? & H)).
  repeat match goal with
         | E : getitem _ _ = Ok _ |- _ => apply getitem_Ok in E
         end.
  unfold read_items_present, listed_items_present.
  repeat first [ match goal with E : _ = Some _ |- _ => rewrite E end
               | progress cbn [is_some andb] ].
  reflexivity.
Qed.

Ltac split_andb H :=
  repeat match type of H with
         | (_ && _) = true => let H' := fresh H in apply andb_prop in H as [H H']
         end.

Ltac some_of H :=
  match type of H with
  | is_some ?o = true => destruct o eqn:?; [clear H | discriminate H]
  end.

Lemma present_not_KeyError (f : H5.file) (key : string) :
  read_items_present f = true -> read_metadata f <> Raise (KeyError key).
Proof.
  unfold read_items_present, listed_items_present, read_metadata.
  intros Hp.
  destruct (H5.what_group f) as [w|]; [|discriminate Hp].
  destruct (H5.how_group f) as [h|]; [|discriminate Hp].
  destruct (H5.where_group f) as [wh|]; [|discriminate Hp].
  destruct (H5.data f) as [d|]; [|discriminate Hp].
  cbn [getitem bind].
  apply andb_prop in Hp as [Hl Ht]. apply andb_prop in Ht as [Hdate Htime].
  apply andb_prop in Hl as [Hl Hys]. apply andb_prop in Hl as [Hl Hxs].
  apply andb_prop in Hl as [Hl Hlat]. apply andb_prop in Hl as [Hl Hlon].
  apply andb_prop in Hl as [Hl Hproj]. apply andb_prop in Hl as [Hl Hep].
  apply andb_prop in Hl as [Hl Hun]. apply andb_prop in Hl as [Hl Hnd].
  apply andb_prop in Hl as [Hgain Hoff].
  some_of Hdate; some_of Htime; some_of Hgain; some_of Hoff; some_of Hnd;
    some_of Hun; some_of Hep; some_of Hproj; some_of Hlon; some_of Hlat;
    some_of Hxs; some_of Hys.
  unfold decode_ascii, strptime_or_raise, fromtimestamp. cbn [getitem bind].
  repeat match goal with
         | |- context [if ?c then _ else _] => destruct c; cbn [bind]
         | |- context [match strptime ?a ?b with _ => _ end] =>
             destruct (strptime a b); cbn [bind]
         end; discriminate.
Qed.

Lemma well_formed_reads (f : H5.file) :
  well_formed f = true ->
  exists (g : metadata) (source_crs target_crs : crs),
    read_metadata f = Ok g
    /\ CRS "EPSG:4326" = Some source_crs
    /\ CRS (projdef g) = Some target_crs.
Proof.
  unfold well_formed, read_metadata. intros H.
  destruct (H5.what_group f) as [w|]; [|discriminate H].
  destruct (H5.how_group f) as [h|]; [|discriminate H].
  destruct (H5.where_group f) as [wh|]; [|discriminate H].
  destruct (H5.data f) as [d|]; [|discriminate H].
  cbn [getitem bind].
  destruct (H5.enddate w) as [date|]; [|discriminate H].
  destruct (H5.endtime w) as [time|]; [|discriminate H].
  destruct (H5.endepochs h) as [t|]; [|discriminate H].
  destruct (H5.projdef wh) as [definition|]; [|discriminate H].
  apply andb_prop in H as [H Htarget]. apply andb_prop in H as [H Hsource].
  apply andb_prop in H as [H Hys]. apply andb_prop in H as [H Hxs].
  apply andb_prop in H as [H Hlat]. apply andb_prop in H as [H Hlon].
  apply andb_prop in H as [H Hdef]. apply andb_prop in H as [H Hhi].
  apply andb_prop in H as [H Hlo]. apply andb_prop in H as [H Hun].
  apply andb_prop in H as [H Hnd]. apply andb_prop in H as [H Hoff].
  apply andb_prop in H as [H Hgain]. apply andb_prop in H as [H Hparse].
  apply andb_prop in H as [Hdate Htime].
  some_of Hparse; some_of Hgain; some_of Hoff; some_of Hnd; some_of Hun;
    some_of Hlon; some_of Hlat; some_of Hxs; some_of Hys;
    some_of Hsource; some_of Htarget.
  unfold decode_ascii, strptime_or_raise, fromtimestamp.
  cbn [getitem bind]. rewrite Hdate. cbn [bind]. rewrite Htime. cbn [bind].
  match goal with E : strptime _ _ = Some _ |- _ => rewrite E end.
  cbn [bind]. rewrite Hlo, Hhi. cbn [andb bind]. rewrite Hdef. cbn [bind].
  eexists _, _, _. split; [reflexivity|]. cbn [projdef].
  split; [reflexivity | eassumption].
Qed.

(** The exceptions of the extraction: never an [IndexError]. *)
Lemma extract_Raise (f : H5.file) (rawfilename : string) (lat lon : float) (e : exn) :
  extract f rawfilename lat lon = Raise e ->
  read_metadata f = Raise e
  \/ e = CRSError \/ e = ValueError \/ e = OverflowError.
Proof.
  unfold extract. intros H.
  apply bind_Raise in H as [H | (g & _ & H)]; [left; exact H | right].
  apply bind_Raise in H as [H | ([row_idx col_idx] & _ & H)];
    [eapply resolve_Raise; exact H|].
  rewrite value_at_cases in H. cbn [bind] in H.
  destruct (if in_bounds g row_idx col_idx then _ else _); discriminate.
Qed.

(** C6, as the code has it.  The items the code requires are the listed
    ones and, besides, the [enddate] and [endtime] attributes of
    [/dataset1/what].  When one of these is missing the extraction fails;
    when all are there it does not fail with a [KeyError] (a missing
    item); and a [KeyError] is raised only when one is missing. *)
Theorem missing_item_fails (f : H5.file) (rawfilename : string) (lat lon : float) :
  (read_items_present f = false -> exists e, extract f rawfilename lat lon = Raise e)
  /\ (read_items_present f = true ->
      forall key, extract f rawfilename lat lon <> Raise (KeyError key))
  /\ (forall key, extract f rawfilename lat lon = Raise (KeyError key) ->
      read_items_present f = false).
Proof.
  assert (Hkey : forall key, extract f rawfilename lat lon = Raise (KeyError key) ->
                             read_items_present f = false).
  { intros key H. apply extract_Raise in H as [H | [H | [H | H]]]; try discriminate.
    destruct (read_items_present f) eqn:P; [|reflexivity].
    exfalso. exact (present_not_KeyError f key P H). }
  split; [|split].
  - intros Hp. destruct (extract f rawfilename lat lon) as [r|e] eqn:E; [|eauto].
    apply extract_Ok in E as (g & _ & _ & Hg & _).
    apply read_metadata_Ok_present in Hg. congruence.
  - intros Hp key H. apply Hkey in H. congruence.
  - exact Hkey.
Qed.

(** C10, as the code has it.  The data array is read only under the bounds
    check, so the extraction never raises an [IndexError]; and on a
    well-formed file it returns its tuple, with the epoch of the file and
    the name it was given, exactly when the two quotients are finite
    numbers: [round] raises on [nan] and on an infinity. *)
Theorem extract_total_on_finite_quotients (f : H5.file) (rawfilename : string)
    (lat lon : float) :
  extract f rawfilename lat lon <> Raise IndexError
  /\ (forall (g : metadata) (row_idx col_idx : Z),
        in_bounds g row_idx col_idx = true ->
        exists raw_value, dset_getitem (dset g) row_idx col_idx = Ok raw_value)
  /\ (well_formed f = true ->
      exists (g : metadata) (source_crs target_crs : crs),
        read_metadata f = Ok g
        /\ CRS "EPSG:4326" = Some source_crs
        /\ CRS (projdef g) = Some target_crs
        /\ ((finite (fst (pixel_quotients source_crs target_crs g lat lon)) = true
             /\ finite (snd (pixel_quotients source_crs target_crs g lat lon)) = true)
            <-> exists text number,
                  extract f rawfilename lat lon
                  = Ok {| epoch := end_epoch g; value := text; dbz := number;
                          filename := rawfilename |})).
Proof.
  split; [|split].
  - intros H. apply extract_Raise in H as [H | [H | [H | H]]]; try discriminate.
    apply read_metadata_Raise in H as [[key H] | [H | [H | H]]]; discriminate.
  - intros g row_idx col_idx Hb. rewrite in_bounds_getitem by exact Hb. eauto.
  - intros Hw.
    destruct (well_formed_reads f Hw) as (g & source_crs & target_crs & Hg & Hs & Ht).
    exists g, source_crs, target_crs. repeat split; try assumption.
    + intros [Hrow Hcol].
      apply py_round_finite in Hrow as [row_idx Hrow].
      apply py_round_finite in Hcol as [col_idx Hcol].
      assert (Hr : resolve g lat lon = Ok (row_idx, col_idx)).
      { rewrite (resolve_cases g lat lon source_crs target_crs Hs Ht).
        rewrite Hcol, Hrow. reflexivity. }
      destruct (extract_steps f rawfilename lat lon g row_idx col_idx Hg Hr)
        as (text & number & _ & E).
      eauto.
    + destruct H as (text & number & E).
      apply extract_Ok in E as (g' & row_idx & col_idx & Hg' & Hr & _).
      rewrite Hg in Hg'. injection Hg' as <-.
      rewrite (resolve_cases g lat lon source_crs target_crs Hs Ht) in Hr.
      apply bind_Ok in Hr as (c & Hc & Hr). apply bind_Ok in Hr as (r & Hr' & _).
      apply py_round_finite. eauto.
    + destruct H as (text & number & E).
      apply extract_Ok in E as (g' & row_idx & col_idx & Hg' & Hr & _).
      rewrite Hg in Hg'. injection Hg' as <-.
      rewrite (resolve_cases g lat lon source_crs target_crs Hs Ht) in Hr.
      apply bind_Ok in Hr as (c & Hc & Hr).
      apply py_round_finite. eauto.
Qed.


(** ** The listing, the failures and the order of the report *)

Lemma endswith_refl (s : string) : endswith s s = true.
Proof. destruct s; cbn [endswith]; rewrite String.eqb_refl; reflexivity. Qed.

Lemma endswith_suffix (s suffix : string) :
  endswith s suffix = true <-> exists stem, s = (stem ++ suffix)%string.
Proof.
  split.
  - induction s as [|c s IH]; cbn [endswith].
    + destruct (String.eqb EmptyString suffix) eqn:E; [|discriminate].
      apply String.eqb_eq in E. intros _. exists EmptyString. exact E.
    + destruct (String.eqb (String c s) suffix) eqn:E.
      * apply String.eqb_eq in E. intros _. exists EmptyString. exact E.
      * intros H. destruct (IH H) as [stem ->]. exists (String c stem). reflexivity.
  - intros [stem ->]. induction stem as [|c stem IH].
    + apply endswith_refl.
    + cbn [append endswith].
      destruct (String.eqb (String c (stem ++ suffix)) suffix); [reflexivity | exact IH].
Qed.


Lemma filter_comm {A : Type} (p q : A -> bool) (l : list A) :
  filter p (filter q l) = filter q (filter p l).
Proof.
  induction l as [|a l IH]; [reflexivity|].
  cbn [filter]. destruct (p a) eqn:P, (q a) eqn:Q; cbn [filter];
    rewrite ?P, ?Q, IH; reflexivity.
Qed.

Lemma NoDup_map_filter {A B : Type} (f : A -> B) (keep : A -> bool) (l : list A) :
  NoDup (map f l) -> NoDup (map f (filter keep l)).
Proof.
  induction l as [|a l IH]; cbn [map filter]; [auto|].
  intros H. inversion H as [|? ? Hnotin Hrest]; subst.
  destruct (keep a); cbn [map]; [|auto].
  constructor; [|auto].
  intros Hin. apply Hnotin. apply in_map_iff in Hin as (x & Hx & Hin).
  apply filter_In in Hin as [Hin _]. apply in_map_iff. eauto.
Qed.

(** The readings of a parse, with the file each one came from. *)
Lemma parse_all_files (fs : filesystem) (parseddata : list reading) :
  parse_all fs = Ok parseddata ->
  exists names,
    listdir fs H5_DATADIR = Some names
    /\ map filename parseddata = filter (fun name => endswith name ".h5") names
    /\ Forall (fun r => exists f,
                   h5py_File fs (os_path_join H5_DATADIR (filename r)) = Some f
                   /\ extract f (filename r) TARGET_LAT TARGET_LON = Ok r)
              parseddata.
Proof.
  unfold parse_all. destruct (listdir fs H5_DATADIR) as [names|]; [|discriminate].
  intros H. exists names. split; [reflexivity|].
  apply mapM_Ok_Forall2 in H.
  induction H as [|name r names' rs Hr _ [IHn IHf]]; [split; [reflexivity | constructor]|].
  apply get_radar_value_at_coord_Ok in Hr as (f & Hopen & Hf).
  assert (Hname : filename r = name).
  { apply extract_Ok in Hf as (_ & _ & _ & _ & _ & _ & _ & Hn). exact Hn. }
  split.
  - cbn [map]. rewrite Hname, IHn. reflexivity.
  - constructor; [|exact IHf]. exists f. rewrite Hname. auto.
Qed.

(** X1. The first loop yields one reading for each listed name that ends
    in [.h5], in the order of the listing, under the bare name; the other
    names are left out.  Each reading is what the extraction gives, at the
    target coordinate, for the file of its name in the data directory. *)
Theorem parse_all_follows_listing (fs : filesystem) (parseddata : list reading) :
  parse_all fs = Ok parseddata ->
  exists names,
    listdir fs H5_DATADIR = Some names
    /\ map filename parseddata = filter (fun name => endswith name ".h5") names
    /\ Forall (fun r =>
                 (exists stem, filename r = (stem ++ ".h5")%string)
                 /\ In (filename r) names
                 /\ exists f,
                      h5py_File fs (os_path_join H5_DATADIR (filename r)) = Some f
                      /\ extract f (filename r) TARGET_LAT TARGET_LON = Ok r)
              parseddata.
Proof.
  intros H. destruct (parse_all_files fs parseddata H) as (names & Hl & Hn & Hf).
  exists names. repeat split; try assumption.
  apply Forall_forall. intros r Hr.
  assert (Hin : In (filename r) (filter (fun name => endswith name ".h5") names)).
  { rewrite <- Hn. apply in_map, Hr. }
  apply filter_In in Hin as [Hin Hend].
  repeat split.
  - apply endswith_suffix, Hend.
  - exact Hin.
  - rewrite Forall_forall in Hf. apply Hf, Hr.
Qed.


(** X3. The sort is stable and the report loop keeps the order: readings
    of one and the same time appear in the report in the order in which
    their files were listed. *)
Theorem report_keeps_listing_order_of_ties (threshold : float)
    (parseddata : list reading) (k : Z) :
  filter (fun r => epoch r =? k) (report_at threshold parseddata)
  = filter (fun r => epoch r =? k)
           (filter (fun r => (threshold <=? dbz r)%float) parseddata).
Proof.
  unfold report_at.
  rewrite filter_comm, (sort_by_stable epoch k parseddata). apply filter_comm.
Qed.

(** X4. Inside the grid the reading is the decoded cell at row [row_idx]
    and column [col_idx]: the row is the first index, counted from the top,
    and no index is taken from the end. *)
Theorem in_grid_reads_cell (f : H5.file) (rawfilename : string) (lat lon : float)
    (g : metadata) (row_idx col_idx : Z) :
  read_metadata f = Ok g ->
  resolve g lat lon = Ok (row_idx, col_idx) ->
  in_bounds g row_idx col_idx = true ->
  let d := decode (H5.cell (dset g) (Z.to_nat row_idx) (Z.to_nat col_idx))
                  (gain g) (offset g) (nodata_val g) (undetect_val g) in
  0 <= row_idx < ysize g /\ 0 <= col_idx < xsize g
  /\ extract f rawfilename lat lon
     = Ok {| epoch := end_epoch g; value := fst d; dbz := snd d;
             filename := rawfilename |}.
Proof.
  intros Hg Hr Hb. cbv zeta.
  split; [|split].
  - unfold in_bounds in Hb. apply andb_prop in Hb as [Hrow _].
    apply andb_prop in Hrow as [H0 H1].
    apply Z.leb_le in H0. apply Z.ltb_lt in H1. auto.
  - unfold in_bounds in Hb. apply andb_prop in Hb as [_ Hcol].
    apply andb_prop in Hcol as [H0 H1].
    apply Z.leb_le in H0. apply Z.ltb_lt in H1. auto.
  - unfold extract. rewrite Hg. cbn [bind]. rewrite Hr. cbn [bind].
    rewrite value_at_cases, Hb. cbn [bind].
    destruct (decode _ _ _ _ _) as [text number]. reflexivity.
Qed.

(** X5. The end date and the end time of a file are not used for the
    reading, yet they are checked: a reading is returned only if both
    texts are there, are ASCII and parse together as [%Y%m%d%H%M%S], and if
    the epoch is a date of the years 1 to 9999. *)
Theorem reading_needs_valid_end_text (f : H5.file) (rawfilename : string)
    (lat lon : float) (r : reading) :
  extract f rawfilename lat lon = Ok r ->
  exists (what_attrs : H5.what_attrs) (date time : string) (dt_object : datetime),
    H5.what_group f = Some what_attrs
    /\ H5.enddate what_attrs = Some date
    /\ H5.endtime what_attrs = Some time
    /\ is_ascii date = true /\ is_ascii time = true
    /\ strptime (date ++ time) "%Y%m%d%H%M%S" = Some dt_object
    /\ -62135596800 <= epoch r <= 253402300799.
Proof.
  intros H. apply extract_Ok in H as (g & _ & _ & Hg & _ & _ & -> & _).
  unfold read_metadata in Hg.
  destruct (H5.what_group f) as [w|] eqn:Ew; [|discriminate]. cbn [getitem bind] in Hg.
  destruct (H5.enddate w) as [date|] eqn:Edate; [|discriminate]. cbn [getitem bind] in Hg.
  unfold decode_ascii in Hg at 1.
  destruct (is_ascii date) eqn:Adate; [|discriminate]. cbn [bind] in Hg.
  destruct (H5.endtime w) as [time|] eqn:Etime; [|discriminate]. cbn [getitem bind] in Hg.
  unfold decode_ascii in Hg at 1.
  destruct (is_ascii time) eqn:Atime; [|discriminate]. cbn [bind] in Hg.
  destruct (H5.how_group f) as [h|]; [|discriminate]. cbn [getitem bind] in Hg.
  unfold strptime_or_raise in Hg.
  destruct (strptime (date ++ time) "%Y%m%d%H%M%S") as [dt|] eqn:Edt; [|discriminate].
  cbn [bind] in Hg.
  destruct (H5.gain w); [|discriminate]. cbn [getitem bind] in Hg.
  destruct (H5.offset w); [|discriminate]. cbn [getitem bind] in Hg.
  destruct (H5.nodata w); [|discriminate]. cbn [getitem bind] in Hg.
  destruct (H5.undetect w); [|discriminate]. cbn [getitem bind] in Hg.
  destruct (H5.endepochs h) as [t|]; [|discriminate]. cbn [getitem bind] in Hg.
  unfold fromtimestamp in Hg.
  destruct ((-62135596800 <=? t) && (t <=? 253402300799)) eqn:Erange; [|discriminate].
  cbn [bind] in Hg.
  repeat (apply bind_Ok in Hg as (? & ? & Hg)).
  injection Hg as <-. cbn [end_epoch].
  exists w, date, time, dt. repeat split; try reflexivity; try assumption.
  - apply andb_prop in Erange as [Hlow _]. apply Z.leb_le, Hlow.
  - apply andb_prop in Erange as [_ Hhigh]. apply Z.leb_le, Hhigh.
Qed.

Lemma eqb_nan_r (x y : float) : Prim2SF y = S754_nan -> (x =? y)%float = false.
Proof.
  intros H. rewrite FloatAxioms.eqb_spec, H. destruct (Prim2SF x); reflexivity.
Qed.

Lemma leb_nan_r (x y : float) : Prim2SF y = S754_nan -> (x <=? y)%float = false.
Proof.
  intros H. rewrite FloatAxioms.leb_spec, H. destruct (Prim2SF x); reflexivity.
Qed.

(** X6. A sentinel that is not a number never matches: when the [nodata]
    attribute is NaN no cell is decoded as No Data, and when the
    [undetect] attribute is NaN no cell is decoded as Undetected; the cell
    is then converted like a measured one. *)
Theorem nan_sentinel_never_matches (raw_value : Z)
    (gain offset nodata_val undetect_val : float) :
  let d := decode raw_value gain offset nodata_val undetect_val in
  (Prim2SF nodata_val = S754_nan -> category_of (fst d) <> NoData)
  /\ (Prim2SF undetect_val = S754_nan -> category_of (fst d) <> Undetect)
  /\ (Prim2SF nodata_val = S754_nan -> Prim2SF undetect_val = S754_nan ->
      d = ((format_2f (promote raw_value * gain + offset) ++ " dBZ")%string,
           (promote raw_value * gain + offset)%float)).
Proof.
  cbv zeta. rewrite decode_cases. cbv zeta. repeat split.
  - intros H. rewrite (eqb_nan_r _ _ H).
    destruct (promote raw_value =? undetect_val)%float; cbn [fst].
    + discriminate.
    + rewrite dBZ_text_is_measured. discriminate.
  - intros H. rewrite (eqb_nan_r _ _ H).
    destruct (promote raw_value =? nodata_val)%float; cbn [fst].
    + discriminate.
    + rewrite dBZ_text_is_measured. discriminate.
  - intros H H'. rewrite (eqb_nan_r _ _ H), (eqb_nan_r _ _ H'). reflexivity.
Qed.

(** X7. A reading whose number is NaN is never reported, whatever the
    threshold: the comparison [dbz >= 40] is false for it, so a file whose
    gain or offset is NaN drops out of the report without a message. *)
Theorem report_has_no_nan :
  (forall (threshold : float) (parseddata : list reading),
      Forall (fun r => Prim2SF (dbz r) <> S754_nan) (report_at threshold parseddata))
  /\ (forall (fs : filesystem) (report : list reading),
        main fs = Ok report -> Forall (fun r => Prim2SF (dbz r) <> S754_nan) report).
Proof.
  assert (H : forall threshold parseddata,
             Forall (fun r => Prim2SF (dbz r) <> S754_nan) (report_at threshold parseddata)).
  { intros threshold parseddata. apply Forall_forall. intros r Hr Hnan.
    apply report_at_In in Hr as [_ Hr].
    rewrite (leb_nan_r _ _ Hnan) in Hr. discriminate. }
  split; [exact H|].
  intros fs report Hm. unfold main in Hm.
  apply bind_Ok in Hm as (parseddata & _ & Hm). injection Hm as <-. apply H.
Qed.

(** X8. Every reading of the report carries the name of a listed file that
    ends in [.h5], and no file is reported twice: if the listing has no
    name twice, neither has the report. *)
Theorem report_names_are_listed_once (fs : filesystem) (report : list reading) :
  main fs = Ok report ->
  exists names,
    listdir fs H5_DATADIR = Some names
    /\ Forall (fun r => In (filename r) names /\ endswith (filename r) ".h5" = true)
              report
    /\ (NoDup names -> NoDup (map filename report) /\ NoDup report).
Proof.
  intros Hm. unfold main in Hm.
  apply bind_Ok in Hm as (parseddata & Hp & Hm). injection Hm as <-.
  destruct (parse_all_files fs parseddata Hp) as (names & Hl & Hn & _).
  exists names. split; [exact Hl|]. split.
  - apply Forall_forall. intros r Hr.
    apply report_at_In in Hr as [Hr _].
    assert (Hin : In (filename r) (filter (fun name => endswith name ".h5") names)).
    { rewrite <- Hn. apply in_map, Hr. }
    apply filter_In in Hin. exact Hin.
  - intros Hnd.
    assert (Hmap : NoDup (map filename (report_at 40%float parseddata))).
    { unfold report_at. apply NoDup_map_filter.
      eapply Permutation_NoDup.
      - apply Permutation_map, Permutation_sym, sort_by_perm.
      - rewrite Hn. apply NoDup_filter, Hnd. }
    split; [exact Hmap|].
    eapply NoDup_map_inv, Hmap.
Qed.

End Extraction.

(** ** The statements on the sample files *)

Abbreviation sample_decode := (decode sample_format_2f).
Abbreviation sample_read_metadata := (read_metadata sample_strptime).
Abbreviation sample_resolve := (resolve string sample_CRS sample_transform).
Abbreviation sample_extract :=
  (extract sample_strptime string sample_CRS sample_transform sample_format_2f).
Abbreviation sample_get_radar_value_at_coord :=
  (get_radar_value_at_coord sample_strptime string sample_CRS sample_transform
                            sample_format_2f).
Abbreviation sample_parse_all :=
  (parse_all sample_strptime string sample_CRS sample_transform sample_format_2f).
Abbreviation sample_main :=
  (main sample_strptime string sample_CRS sample_transform sample_format_2f).


Example decode_example_text :
  sample_decode 140 0.5%float (-32)%float 255%float 0%float
  = ("38.00 dBZ"%string, 38%float).
Proof. reflexivity. Qed.


(** A sentinel that is off by one unit in the last place does not match. *)
Example decode_no_tolerance :
  sample_decode 255 0.5%float (-32)%float 255.00000000000003%float 0%float
  = ("95.50 dBZ"%string, 95.5%float).
Proof. reflexivity. Qed.

(** The target of the program in the sample grid: pixel (168, 612). *)
Lemma resolve_rounds_quotients_witness :
  exists row_idx col_idx : Z,
    sample_resolve sample_metadata TARGET_LAT TARGET_LON = Ok (row_idx, col_idx)
    /\ nearest_even col_idx (5385819332241658 # 8796093022208)
    /\ nearest_even row_idx (5904266945041203 # 35184372088832).
Proof.
  refine (proj1 (proj2 (resolve_rounds_quotients string sample_CRS sample_transform
                          sample_metadata TARGET_LAT TARGET_LON
                          "EPSG:4326"%string "+proj=eqc +R=6378137"%string
                          _ _ _ _ eq_refl eq_refl eq_refl eq_refl)) _ _ _ _);
    vm_compute; reflexivity.
Defined.

Example resolve_example :
  sample_resolve sample_metadata TARGET_LAT TARGET_LON = Ok (168, 612).
Proof. reflexivity. Qed.

(** A pixel far outside the grid is returned as it is. *)
Example resolve_out_of_range :
  sample_resolve far_metadata TARGET_LAT TARGET_LON = Ok (1838, 612).
Proof. reflexivity. Qed.

(** C2 as stated fails: a pair is not returned for every file and point.
    The projection of the sample file is accepted; a target at latitude 91
    projects to an infinity, and on the file with a horizontal scale of zero
    the column quotient of the program's target is an infinity: [round]
    raises on both. *)
Lemma resolve_raises_counterexample :
  sample_CRS (projdef sample_metadata) = Some "+proj=eqc +R=6378137"%string
  /\ sample_resolve sample_metadata 91%float 25.5%float = Raise OverflowError
  /\ sample_resolve zero_xscale_metadata TARGET_LAT TARGET_LON = Raise OverflowError.
Proof. repeat split; reflexivity. Qed.

Lemma report_keeps_measured_above_witness :
  exists report,
    sample_main sample_fs = Ok report
    /\ report = filter (measured_at_least 40%float) (sort_by epoch sample_parseddata)
    /\ Permutation report (filter (measured_at_least 40%float) sample_parseddata)
    /\ Forall (fun r => category_of (value r) = Measured
                        /\ (40 <=? dbz r)%float = true)
              report
    /\ forall r, In r sample_parseddata -> category_of (value r) = Measured ->
                 (40 <=? dbz r)%float = true -> In r report.
Proof.
  apply (report_keeps_measured_above sample_strptime string sample_CRS
           sample_transform sample_format_2f sample_fs sample_parseddata);
    reflexivity.
Defined.

(** The threshold matters to [report_at_filter]: at 0.0 the reading of a
    file whose grid does not hold the target would pass the test of the
    report loop, although it is not Measured. *)
Example report_at_threshold_zero :
  sample_parse_all sample_fs = Ok sample_parseddata
  /\ report_at 0%float sample_parseddata = [weak_reading; storm_reading; far_reading]
  /\ category_of (value far_reading) = NotInData.
Proof. repeat split; reflexivity. Qed.

Example main_example : sample_main sample_fs = Ok [storm_reading].
Proof. reflexivity. Qed.

Lemma out_of_grid_is_not_in_data_witness :
  sample_extract far_file "far.h5"%string TARGET_LAT TARGET_LON = Ok far_reading
  /\ category_of NOT_IN_DATA = NotInData
  /\ forall (fs : filesystem) (report : list reading) (r : reading),
       sample_main fs = Ok report -> In r report ->
       category_of (value r) <> NotInData.
Proof.
  apply (out_of_grid_is_not_in_data sample_strptime string sample_CRS
           sample_transform sample_format_2f far_file "far.h5"%string TARGET_LAT TARGET_LON
           far_metadata 1838 612);
    reflexivity.
Defined.

Lemma timestamp_is_endepochs_witness :
  exists (f : H5.file) (how_attrs : H5.how_attrs),
    h5py_File sample_fs (os_path_join H5_DATADIR "storm.h5"%string) = Some f
    /\ H5.how_group f = Some how_attrs
    /\ H5.endepochs how_attrs = Some 1715551809
    /\ forall (date time : option string) (r' : reading),
         sample_extract (with_end_text date time f) "storm.h5"%string TARGET_LAT TARGET_LON
         = Ok r' ->
         r' = storm_reading.
Proof.
  apply (timestamp_is_endepochs sample_strptime string sample_CRS sample_transform
           sample_format_2f sample_fs "storm.h5"%string TARGET_LAT TARGET_LON storm_reading).
  reflexivity.
Defined.

(** The end date of the file is 20240512 and the epoch 1715551809; with the
    end date 19990101 in its place the reading is the same. *)
Example timestamp_ignores_end_text :
  sample_extract (with_end_text (Some "19990101"%string) (Some "000000"%string) sample_file)
                 "storm.h5"%string TARGET_LAT TARGET_LON
  = Ok storm_reading.
Proof. reflexivity. Qed.

Lemma missing_item_fails_witness :
  exists e, sample_extract file_without_enddate "storm.h5"%string TARGET_LAT TARGET_LON = Raise e.
Proof.
  apply (proj1 (missing_item_fails sample_strptime string sample_CRS sample_transform
                  sample_format_2f file_without_enddate "storm.h5"%string
                  TARGET_LAT TARGET_LON)).
  reflexivity.
Defined.

(** C6 as stated fails: a file with every listed item but no [enddate]
    raises a [KeyError]. *)
Lemma listed_items_counterexample :
  listed_items_present file_without_enddate = true
  /\ sample_extract file_without_enddate "storm.h5"%string TARGET_LAT TARGET_LON
     = Raise (KeyError "enddate"%string).
Proof. split; reflexivity. Qed.

Lemma report_sorted_by_epoch_witness :
  StronglySorted (key_le epoch) [storm_reading].
Proof.
  apply (proj1 (proj2 (report_sorted_by_epoch sample_strptime string sample_CRS
                         sample_transform sample_format_2f)) sample_fs).
  reflexivity.
Defined.

Lemma corner_resolves_to_origin_witness :
  sample_resolve sample_metadata (ul_lat sample_metadata) (ul_lon sample_metadata)
  = Ok (0, 0).
Proof.
  apply (corner_resolves_to_origin string sample_CRS sample_transform sample_metadata
           "EPSG:4326"%string "+proj=eqc +R=6378137"%string
           2226390%float 5009377.5%float);
    reflexivity.
Defined.

(** C8 as stated fails: with a horizontal scale of zero the quotient of the
    column is 0.0 / 0.0, a [nan], and [round] raises. *)
Lemma zero_scale_counterexample :
  sample_read_metadata file_zero_xscale = Ok zero_xscale_metadata
  /\ sample_resolve zero_xscale_metadata (ul_lat zero_xscale_metadata)
                    (ul_lon zero_xscale_metadata)
     = Raise ValueError.
Proof. split; reflexivity. Qed.

Lemma not_measured_is_zero_witness : dbz far_reading = 0%float.
Proof.
  apply (proj1 (not_measured_is_zero sample_strptime string sample_CRS
                  sample_transform sample_format_2f)
               far_file "far.h5"%string TARGET_LAT TARGET_LON far_reading).
  - reflexivity.
  - discriminate.
Defined.

Lemma extract_total_on_finite_quotients_witness :
  exists (g : metadata) (source_crs target_crs : string),
    sample_read_metadata sample_file = Ok g
    /\ sample_CRS "EPSG:4326"%string = Some source_crs
    /\ sample_CRS (projdef g) = Some target_crs
    /\ ((finite (fst (pixel_quotients string sample_transform source_crs target_crs g
                                      TARGET_LAT TARGET_LON)) = true
         /\ finite (snd (pixel_quotients string sample_transform source_crs target_crs g
                                         TARGET_LAT TARGET_LON)) = true)
        <-> exists text number,
              sample_extract sample_file "storm.h5"%string TARGET_LAT TARGET_LON
              = Ok {| epoch := end_epoch g; value := text; dbz := number;
                      filename := "storm.h5"%string |}).
Proof.
  apply (proj2 (proj2 (extract_total_on_finite_quotients sample_strptime string
                         sample_CRS sample_transform sample_format_2f sample_file
                         "storm.h5"%string TARGET_LAT TARGET_LON))).
  reflexivity.
Defined.

(** C10 as stated fails: the sample file is well formed, and a target at
    latitude 91 projects to an infinity, on which [round] raises; and so does
    the target of the program on the file with a horizontal scale of zero,
    whose column quotient is an infinity. *)
Lemma not_total_counterexample :
  well_formed sample_strptime string sample_CRS sample_file = true
  /\ sample_extract sample_file "storm.h5"%string 91%float 25.5%float
     = Raise OverflowError
  /\ well_formed sample_strptime string sample_CRS file_zero_xscale = true
  /\ sample_extract file_zero_xscale "storm.h5"%string TARGET_LAT TARGET_LON
     = Raise OverflowError.
Proof. repeat split; reflexivity. Qed.

(** ** The remote fetcher: what a run does to the local files *)

Section FetcherFacts.
Variable strptime : string -> string -> option datetime.
Variable strftime : datetime -> string -> option string.
Variable find_all_a_href : string -> result (list (option string)).
Variable re_match : string -> string -> bool.
Variable Path : string -> string.
Variable path_div : string -> string -> string.

Local Abbreviation download_path := (Path H5_DATADIR).
Local Abbreviation url_of filename := (SERVER_URL ++ filename)%string.
Local Abbreviation one := (download_one path_div).
Local Abbreviation all := (download_all path_div).
Local Abbreviation run :=
  (download_radar_files_for_date strptime strftime find_all_a_href re_match
                                 Path path_div).
Local Abbreviation selected :=
  (selected_links strptime strftime find_all_a_href re_match).

Lemma nodes_create (path : string) (n : node) (w : world) (p : string) :
  nodes (create path n w) p = if String.eqb p path then Some n else nodes w p.
Proof. reflexivity. Qed.

Lemma create_preserves (path : string) (n n' : node) (w : world) (p : string) :
  nodes w path = None -> nodes w p = Some n' -> nodes (create path n w) p = Some n'.
Proof.
  intros Hnone Hp. rewrite nodes_create.
  destruct (String.eqb_spec p path) as [->|_]; [congruence | exact Hp].
Qed.

Lemma mkdir_preserves (env : environment) (path : string) (w : world)
    (p : string) (n : node) :
  nodes w p = Some n -> nodes (fst (mkdir env path w)) p = Some n.
Proof.
  intros Hp. unfold mkdir.
  destruct (nodes w path) as [[c|]|] eqn:E; cbn [fst]; try exact Hp.
  destruct (creatable env path); cbn [fst]; [|exact Hp].
  apply create_preserves; assumption.
Qed.

Lemma mkdir_requested (env : environment) (path : string) (w : world) :
  requested (fst (mkdir env path w)) = requested w.
Proof.
  unfold mkdir. destruct (nodes w path) as [[c|]|]; try reflexivity.
  destruct (creatable env path); reflexivity.
Qed.

Lemma mkdir_nodes (env : environment) (path : string) (w : world) (p : string) :
  p <> path -> nodes (fst (mkdir env path w)) p = nodes w p.
Proof.
  intros Hp. unfold mkdir. destruct (nodes w path) as [[c|]|]; try reflexivity.
  destruct (creatable env path); try reflexivity.
  cbn [fst]. rewrite nodes_create.
  destruct (String.eqb_spec p path); [contradiction | reflexivity].
Qed.



(** *** One turn of the loop *)

Lemma one_preserves (env : environment) (dir filename : string) (w : world)
    (p : string) (n : node) :
  nodes w p = Some n -> nodes (fst (one env dir filename w)) p = Some n.
Proof.
  intros Hp. unfold download_one.
  destruct (nodes w (path_div dir filename)) as [n'|] eqn:E; cbn [is_some fst];
    [exact Hp|].
  unfold requests_get. cbn [requested py_print].
  destruct (server env _ _) as [e|e|b]; cbn [fst py_print nodes]; try exact Hp.
  destruct (creatable env (path_div dir filename)); [|exact Hp].
  assert (Hc : nodes (create (path_div dir filename)
                             (File (join_chunks (chunks_of b)))
                             {| nodes := nodes w;
                                requested := requested w ++ [url_of filename];
                                printed := printed w
                                           ++ [("Downloading " ++ filename ++ "...")%string] |})
                     p = Some n)
    by (apply create_preserves; assumption).
  destruct b; exact Hc.
Qed.

(** What one turn requests: nothing, or the URL of the file, and this only
    when the file is not there. *)
Lemma one_requested (env : environment) (dir filename : string) (w : world) :
  (nodes w (path_div dir filename) <> None
   /\ requested (fst (one env dir filename w)) = requested w
   /\ snd (one env dir filename w) = None
   /\ nodes (fst (one env dir filename w)) = nodes w)
  \/ (nodes w (path_div dir filename) = None
      /\ requested (fst (one env dir filename w)) = requested w ++ [url_of filename]).
Proof.
  unfold download_one.
  destruct (nodes w (path_div dir filename)) as [n'|] eqn:E; cbn [is_some].
  - left. repeat split. discriminate.
  - right. split; [reflexivity|].
    unfold requests_get. cbn [requested py_print].
    destruct (server env _ _) as [e|e|b]; try reflexivity.
    destruct (creatable env (path_div dir filename)); [|reflexivity].
    destruct b; reflexivity.
Qed.



(** After a turn that raised nothing, the file is there, or the request for
    it was refused before any body came. *)
Lemma one_done (env : environment) (dir filename : string) (w : world) :
  snd (one env dir filename w) = None ->
  nodes (fst (one env dir filename w)) (path_div dir filename) <> None
  \/ (exists error,
         server env (length (requested w)) (url_of filename) = NoResponse error
         \/ server env (length (requested w)) (url_of filename) = BadStatus error).
Proof.
  unfold download_one.
  destruct (nodes w (path_div dir filename)) as [n'|] eqn:E; cbn [is_some fst snd].
  - intros _. left. cbn [py_print nodes]. congruence.
  - unfold requests_get. cbn [requested py_print].
    destruct (server env _ _) as [e'|e'|b]; cbn [fst snd]; eauto.
    destruct (creatable env (path_div dir filename)); [|discriminate].
    intros _. left.
    assert (Hc : forall w0 : world,
               nodes (create (path_div dir filename)
                             (File (join_chunks (chunks_of b))) w0)
                     (path_div dir filename) <> None).
    { intros w0. rewrite nodes_create, String.eqb_refl. discriminate. }
    destruct b; cbn [fst py_print nodes]; apply Hc.
Qed.

(** *** The loop *)

Lemma one_absent_before (env : environment) (dir filename : string) (w : world)
    (p : string) :
  nodes (fst (one env dir filename w)) p = None -> nodes w p = None.
Proof.
  intros H. destruct (nodes w p) as [n|] eqn:E; [|reflexivity].
  rewrite (one_preserves env dir filename w p n E) in H. discriminate.
Qed.

Lemma one_requested_app (env : environment) (dir filename : string) (w : world) :
  exists new, requested (fst (one env dir filename w)) = requested w ++ new.
Proof.
  destruct (one_requested env dir filename w) as [(_ & H & _) | (_ & H)];
    rewrite H; [exists []; rewrite app_nil_r | eexists]; reflexivity.
Qed.

Lemma all_cons (env : environment) (dir filename : string) (rest : list string)
    (w : world) :
  all env dir (filename :: rest) w
  = match snd (one env dir filename w) with
    | None => all env dir rest (fst (one env dir filename w))
    | Some e => (fst (one env dir filename w), Some e)
    end.
Proof.
  cbn [download_all]. destruct (one env dir filename w) as [w1 [e|]]; reflexivity.
Qed.

Lemma all_preserves (env : environment) (dir : string) (links : list string)
    (w : world) (p : string) (n : node) :
  nodes w p = Some n -> nodes (fst (all env dir links w)) p = Some n.
Proof.
  revert w; induction links as [|filename rest IH]; intros w Hp; [exact Hp|].
  rewrite all_cons. pose proof (one_preserves env dir filename w p n Hp) as H1.
  destruct (snd (one env dir filename w)); [exact H1 | apply IH, H1].
Qed.

Lemma all_requested (env : environment) (dir : string) (links : list string)
    (w : world) :
  exists new,
    requested (fst (all env dir links w)) = requested w ++ new
    /\ Forall (fun url => exists filename,
                  In filename links /\ url = url_of filename
                  /\ nodes w (path_div dir filename) = None) new.
Proof.
  revert w; induction links as [|filename rest IH]; intros w.
  - exists []. cbn [download_all fst]. rewrite app_nil_r. auto.
  - rewrite all_cons.
    assert (Hrest : exists new,
               requested (fst (all env dir rest (fst (one env dir filename w))))
               = requested (fst (one env dir filename w)) ++ new
               /\ Forall (fun url => exists name,
                             In name (filename :: rest) /\ url = url_of name
                             /\ nodes w (path_div dir name) = None) new).
    { destruct (IH (fst (one env dir filename w))) as (new & Hnew & Hall).
      exists new. split; [exact Hnew|].
      eapply Forall_impl; [|exact Hall].
      intros url (name & Hin & Hurl & Hnone). exists name.
      repeat split; [right; exact Hin | exact Hurl |].
      eapply one_absent_before, Hnone. }
    destruct (one_requested env dir filename w) as [(_ & Hreq & Hout & _) | (Hnone & Hreq)].
    + rewrite Hout. destruct Hrest as (new & Hnew & Hall).
      exists new. rewrite Hnew, Hreq. auto.
    + assert (Hfirst : exists name,
                 In name (filename :: rest) /\ url_of filename = url_of name
                 /\ nodes w (path_div dir name) = None)
        by (exists filename; repeat split; [left; reflexivity | exact Hnone]).
      destruct (snd (one env dir filename w)).
      * exists [url_of filename]. cbn [fst]. split; [exact Hreq | auto].
      * destruct Hrest as (new & Hnew & Hall).
        exists (url_of filename :: new). rewrite Hnew, Hreq, <- app_assoc.
        split; [reflexivity | constructor; assumption].
Qed.

Lemma all_requested_app (env : environment) (dir : string) (links : list string)
    (w : world) :
  exists new, requested (fst (all env dir links w)) = requested w ++ new.
Proof. destruct (all_requested env dir links w) as (new & H & _). eauto. Qed.

Lemma nth_error_app_first {A : Type} (l l' : list A) (x : A) :
  nth_error ((l ++ [x]) ++ l') (length l) = Some x.
Proof.
  rewrite <- app_assoc. rewrite nth_error_app2 by lia.
  rewrite Nat.sub_diag. reflexivity.
Qed.



Lemma all_done (env : environment) (dir : string) (links : list string)
    (w : world) (filename : string) :
  snd (all env dir links w) = None -> In filename links ->
  nodes (fst (all env dir links w)) (path_div dir filename) <> None
  \/ exists k error,
       (length (requested w) <= k)%nat
       /\ nth_error (requested (fst (all env dir links w))) k = Some (url_of filename)
       /\ (server env k (url_of filename) = NoResponse error
           \/ server env k (url_of filename) = BadStatus error).
Proof.
  revert w; induction links as [|name rest IH]; intros w; [contradiction|].
  rewrite all_cons. destruct (snd (one env dir name w)) as [e'|] eqn:E;
    [discriminate|].
  intros Hout [->|Hin].
  - destruct (one_requested env dir filename w) as [(Hsome & _ & _ & Hnodes) | (_ & Hreq)].
    + left. destruct (nodes w (path_div dir filename)) as [n|] eqn:En;
        [|contradiction].
      rewrite (all_preserves env dir rest _ _ n); [discriminate|].
      rewrite Hnodes. exact En.
    + destruct (one_done env dir filename w E) as [Hthere | (error & Hrefused)].
      * left. destruct (nodes (fst (one env dir filename w)) (path_div dir filename))
          as [n|] eqn:En; [|contradiction].
        rewrite (all_preserves env dir rest _ _ n En). discriminate.
      * right. exists (length (requested w)), error.
        repeat split; [lia | | exact Hrefused].
        destruct (all_requested_app env dir rest (fst (one env dir filename w)))
          as (new & ->).
        rewrite Hreq. apply nth_error_app_first.
  - destruct (IH _ Hout Hin) as [Hthere | (k & error & Hk & Hnth & Hrefused)];
      [left; exact Hthere | right].
    exists k, error. repeat split; try assumption.
    destruct (one_requested_app env dir name w) as (new & Hnew).
    rewrite Hnew, length_app in Hk. lia.
Qed.

(** *** The whole run *)

(** The three ways of a run: the directory cannot be made; no link is kept,
    and then nothing is raised unless the parser rejects the page; the loop
    runs over the kept links, from a world [w2] that differs from the one
    after [mkdir] by the request for the page and by printed lines. *)
Lemma run_cases (env : environment) (date_str : string) (w : world) :
  (exists e,
      snd (mkdir env download_path w) = Some e
      /\ snd (run env date_str w) = Some e
      /\ nodes (fst (run env date_str w)) = nodes w
      /\ requested (fst (run env date_str w)) = requested w)
  \/ (snd (mkdir env download_path w) = None
      /\ selected env date_str w = []
      /\ (snd (run env date_str w) = None
          \/ exists chunks e,
               server env (length (requested w)) SERVER_URL = Good (Complete chunks)
               /\ find_all_a_href (join_chunks chunks) = Raise e
               /\ snd (run env date_str w) = Some e)
      /\ nodes (fst (run env date_str w)) = nodes (fst (mkdir env download_path w))
      /\ (requested (fst (run env date_str w)) = requested w
          \/ (filename_date_prefix strptime strftime date_str <> None
              /\ requested (fst (run env date_str w)) = requested w ++ [SERVER_URL])))
  \/ (snd (mkdir env download_path w) = None
      /\ selected env date_str w <> []
      /\ exists w2,
           nodes w2 = nodes (fst (mkdir env download_path w))
           /\ requested w2 = requested w ++ [SERVER_URL]
           /\ nodes (fst (run env date_str w))
              = nodes (fst (all env download_path (selected env date_str w) w2))
           /\ requested (fst (run env date_str w))
              = requested (fst (all env download_path (selected env date_str w) w2))
           /\ snd (run env date_str w)
              = snd (all env download_path (selected env date_str w) w2)).
Proof.
  unfold download_radar_files_for_date, selected_links, mkdir.
  cbn [py_print nodes requested].
  destruct (nodes w download_path) as [[content|]|] eqn:Edir;
    [left; eexists; repeat split | | ].
  - (* the directory is there *)
    right. cbn [fst snd].
    destruct (filename_date_prefix strptime strftime date_str) as [prefix|] eqn:Edate;
      [|left; repeat split; left; reflexivity].
    unfold requests_get. cbn [requested py_print nodes printed].
    destruct (server env (length (requested w)) SERVER_URL) as [e|e|[chunks|chunks e]] eqn:Epage;
      try (left; repeat split; solve [left; reflexivity
                                     | right; split; [discriminate | reflexivity]]).
    destruct (find_all_a_href (join_chunks chunks)) as [hrefs|e] eqn:Eparse;
      [|left; repeat split;
        solve [right; exists chunks, e; repeat split; first [reflexivity | exact Eparse]
              | right; split; [discriminate | reflexivity]]].
    destruct (links_to_download re_match (file_pattern prefix) hrefs)
      as [|link links] eqn:Elinks;
      [left; repeat split; solve [left; reflexivity
                                 | right; split; [discriminate | reflexivity]]|].
    right. split; [reflexivity|]. split; [discriminate|].
    match goal with
    | |- context [download_all path_div env download_path (link :: links) ?w2] =>
        exists w2
    end.
    destruct (all env download_path (link :: links) _) as [w3 [e|]];
      repeat split; reflexivity.
  - (* the directory is to be made *)
    destruct (creatable env download_path) eqn:Ecreate;
      [|left; eexists; repeat split].
    right. cbn [fst snd].
    destruct (filename_date_prefix strptime strftime date_str) as [prefix|] eqn:Edate;
      [|left; repeat split; left; reflexivity].
    unfold requests_get. cbn [requested py_print nodes printed create].
    destruct (server env (length (requested w)) SERVER_URL) as [e|e|[chunks|chunks e]] eqn:Epage;
      try (left; repeat split; solve [left; reflexivity
                                     | right; split; [discriminate | reflexivity]]).
    destruct (find_all_a_href (join_chunks chunks)) as [hrefs|e] eqn:Eparse;
      [|left; repeat split;
        solve [right; exists chunks, e; repeat split; first [reflexivity | exact Eparse]
              | right; split; [discriminate | reflexivity]]].
    destruct (links_to_download re_match (file_pattern prefix) hrefs)
      as [|link links] eqn:Elinks;
      [left; repeat split; solve [left; reflexivity
                                 | right; split; [discriminate | reflexivity]]|].
    right. split; [reflexivity|]. split; [discriminate|].
    match goal with
    | |- context [download_all path_div env download_path (link :: links) ?w2] =>
        exists w2
    end.
    destruct (all env download_path (link :: links) _) as [w3 [e|]];
      repeat split; reflexivity.
Qed.

Lemma mkdir_absent_before (env : environment) (path : string) (w : world) (p : string) :
  nodes (fst (mkdir env path w)) p = None -> nodes w p = None.
Proof.
  intros H. destruct (nodes w p) as [n|] eqn:E; [|reflexivity].
  rewrite (mkdir_preserves env path w p n E) in H. discriminate.
Qed.

Lemma mkdir_makes (env : environment) (path : string) (w : world) :
  nodes w path = None -> creatable env path = true ->
  snd (mkdir env path w) = None
  /\ nodes (fst (mkdir env path w)) path = Some Directory.
Proof.
  intros Hnone Hc. unfold mkdir. rewrite Hnone, Hc. cbn [fst snd].
  rewrite nodes_create, String.eqb_refl. auto.
Qed.

(** X9. A run never changes and never removes what is already there: every
    file or directory that exists before the call exists after it, with the
    same content.  A download is written only where nothing exists. *)
Theorem download_keeps_existing_files (env : environment) (date_str : string)
    (w : world) (p : string) (n : node) :
  nodes w p = Some n -> nodes (fst (run env date_str w)) p = Some n.
Proof.
  intros Hp.
  destruct (run_cases env date_str w)
    as [(e & _ & _ & Hn & _) | [(_ & _ & _ & Hn & _) | (_ & _ & w2 & Hw2 & _ & Hn & _)]];
    rewrite Hn.
  - exact Hp.
  - apply mkdir_preserves, Hp.
  - apply all_preserves. rewrite Hw2. apply mkdir_preserves, Hp.
Qed.

(** X10. When no link is kept (the date is refused, the page does not arrive,
    or no anchor matches), the run writes no file: the local files are as
    before, but for the download directory, which is made before the date is
    looked at; and at most the page is requested, nothing at all when the
    date is refused. *)
Theorem download_without_links_writes_nothing (env : environment)
    (date_str : string) (w : world) :
  selected env date_str w = [] ->
  (forall p, p <> download_path -> nodes (fst (run env date_str w)) p = nodes w p)
  /\ (nodes w download_path = None -> creatable env download_path = true ->
      nodes (fst (run env date_str w)) download_path = Some Directory)
  /\ (requested (fst (run env date_str w)) = requested w
      \/ requested (fst (run env date_str w)) = requested w ++ [SERVER_URL])
  /\ (filename_date_prefix strptime strftime date_str = None ->
      requested (fst (run env date_str w)) = requested w).
Proof.
  intros Hsel.
  destruct (run_cases env date_str w)
    as [(e & He & _ & Hn & Hr) | [(_ & _ & _ & Hn & Hr) | (_ & Hne & _)]];
    [| |contradiction].
  - rewrite Hn, Hr. repeat split; auto.
    intros Hnone Hc. destruct (mkdir_makes env download_path w Hnone Hc) as [H _].
    congruence.
  - rewrite Hn. repeat split.
    + intros p Hp. apply mkdir_nodes, Hp.
    + intros Hnone Hc. apply (mkdir_makes env download_path w Hnone Hc).
    + destruct Hr as [Hr | [_ Hr]]; auto.
    + intros Hdate. destruct Hr as [Hr | [Hd _]]; [exact Hr | contradiction].
Qed.

(** X11. What a run requests: nothing, or first the page of the server and
    then, for links that were kept, the URL made of the server and the link;
    and a link is requested only if no file of its name was there before the
    run. *)
Theorem download_requests (env : environment) (date_str : string) (w : world) :
  exists new,
    requested (fst (run env date_str w)) = requested w ++ new
    /\ (new = []
        \/ exists files,
             new = SERVER_URL :: files
             /\ Forall (fun url => exists filename,
                           In filename (selected env date_str w)
                           /\ url = url_of filename
                           /\ nodes w (path_div download_path filename) = None)
                       files).
Proof.
  destruct (run_cases env date_str w)
    as [(e & _ & _ & _ & Hr) | [(_ & _ & _ & _ & Hr) | (_ & _ & w2 & Hw2 & Hr2 & _ & Hr & _)]].
  - exists []. rewrite Hr, app_nil_r. auto.
  - destruct Hr as [Hr | [_ Hr]]; rewrite Hr.
    + exists []. rewrite app_nil_r. auto.
    + exists [SERVER_URL]. split; [reflexivity|]. right. exists []. auto.
  - destruct (all_requested env download_path (selected env date_str w) w2)
      as (new & Hnew & Hall).
    exists (SERVER_URL :: new). rewrite Hr, Hnew, Hr2, <- app_assoc.
    split; [reflexivity|]. right. exists new. split; [reflexivity|].
    eapply Forall_impl; [|exact Hall].
    intros url (filename & Hin & Hurl & Hnone). exists filename.
    repeat split; try assumption.
    rewrite Hw2 in Hnone. eapply mkdir_absent_before, Hnone.
Qed.



(** X14. A failed download does not stop the run: when no exception leaves
    it, every kept link has its file locally afterwards, or its request was
    answered by a failure before any body ([requests.get] raised or the
    status was bad). *)
Theorem download_attempts_every_link (env : environment) (date_str : string)
    (w : world) (filename : string) :
  snd (run env date_str w) = None ->
  In filename (selected env date_str w) ->
  nodes (fst (run env date_str w)) (path_div download_path filename) <> None
  \/ exists k error,
       nth_error (requested (fst (run env date_str w))) k = Some (url_of filename)
       /\ (server env k (url_of filename) = NoResponse error
           \/ server env k (url_of filename) = BadStatus error).
Proof.
  destruct (run_cases env date_str w)
    as [(e' & _ & Hs & _) | [(_ & Hsel & _) | (_ & _ & w2 & _ & _ & Hn & Hr & Hs)]].
  - rewrite Hs. discriminate.
  - rewrite Hsel. contradiction.
  - rewrite Hs, Hn, Hr. intros Hout Hin.
    destruct (all_done env download_path _ w2 filename Hout Hin)
      as [H | (k & error & _ & Hnth & Hrefused)]; [left; exact H | right; eauto].
Qed.

(** X15. A download that breaks off leaves its file behind: when the body of
    the response ends in an error, the chunks that arrived stay in the file,
    nothing is raised, and a later turn for the same link, whatever the
    server would answer, finds the file, requests nothing and changes
    nothing. *)
Theorem broken_download_is_kept (env : environment) (dir filename : string)
    (w : world) (chunks : list string) (error : string) :
  nodes w (path_div dir filename) = None ->
  creatable env (path_div dir filename) = true ->
  server env (length (requested w)) (url_of filename) = Good (Broken chunks error) ->
  let w1 := fst (one env dir filename w) in
  snd (one env dir filename w) = None
  /\ nodes w1 (path_div dir filename) = Some (File (join_chunks chunks))
  /\ forall env' : environment,
       snd (one env' dir filename w1) = None
       /\ requested (fst (one env' dir filename w1)) = requested w1
       /\ nodes (fst (one env' dir filename w1)) = nodes w1.
Proof.
  intros Hnone Hc Hbody. cbv zeta.
  assert (Hfile : nodes (fst (one env dir filename w)) (path_div dir filename)
                  = Some (File (join_chunks chunks))).
  { unfold download_one. rewrite Hnone. cbn [is_some].
    unfold requests_get. cbn [requested py_print]. rewrite Hbody, Hc.
    cbn [fst py_print nodes chunks_of]. rewrite nodes_create, String.eqb_refl.
    reflexivity. }
  split; [|split; [exact Hfile|]].
  - unfold download_one. rewrite Hnone. cbn [is_some].
    unfold requests_get. cbn [requested py_print]. rewrite Hbody, Hc. reflexivity.
  - intros env'.
    destruct (one_requested env' dir filename (fst (one env dir filename w)))
      as [(_ & Hr & Hs & Hn) | (Habsent & _)]; [auto | congruence].
Qed.
End FetcherFacts.

(** ** The statements on the sample server and the sample directories *)

Abbreviation sample_run :=
  (download_radar_files_for_date sample_strptime_date sample_strftime
     sample_find_all_a_href sample_re_match sample_Path sample_path_div).
Abbreviation sample_selected :=
  (selected_links sample_strptime_date sample_strftime sample_find_all_a_href
     sample_re_match).
Abbreviation sample_download_one := (download_one sample_path_div).

(** The run for 22 May 2024 keeps four links, skips the file that is there
    and requests the three others after the page. *)
Example sample_run_requests :
  sample_selected sample_env "2024-05-22" sample_world
  = ["Composite.20240522.0000.h5"; "Composite.20240522.0010.h5";
     "Composite.20240522.0020.h5"; "Composite.20240522.0030.h5"]%string
  /\ requested (fst (sample_run sample_env "2024-05-22" sample_world))
     = ["http://83.228.89.166/";
        "http://83.228.89.166/Composite.20240522.0010.h5";
        "http://83.228.89.166/Composite.20240522.0020.h5";
        "http://83.228.89.166/Composite.20240522.0030.h5"]%string
  /\ snd (sample_run sample_env "2024-05-22" sample_world) = None.
Proof. repeat split; vm_compute; reflexivity. Qed.

(** What the run leaves in the download directory: the old file, the file
    that arrived, the part of the file that broke off, and nothing for the
    file that was not found. *)
Example sample_run_files :
  map (nodes (fst (sample_run sample_env "2024-05-22" sample_world)))
      ["datafiles/Composite.20240522.0000.h5"; "datafiles/Composite.20240522.0010.h5";
       "datafiles/Composite.20240522.0020.h5"; "datafiles/Composite.20240522.0030.h5"]%string
  = [Some (File "old"); Some (File "HDF5"); Some (File "HD"); None].
Proof. vm_compute. reflexivity. Qed.

Example sample_run_printed :
  printed (fst (sample_run sample_env "22.05.2024" empty_world))
  = ["--- Starting process for date: 22.05.2024 ---";
     "Error: Invalid date format '22.05.2024'. Please use YYYY-MM-DD."]%string.
Proof. vm_compute. reflexivity. Qed.

Lemma download_keeps_existing_files_witness :
  nodes (fst (sample_run sample_env "2024-05-22"%string sample_world))
        "datafiles/Composite.20240522.0000.h5"%string
  = Some (File "old").
Proof.
  apply (download_keeps_existing_files sample_strptime_date sample_strftime
           sample_find_all_a_href sample_re_match sample_Path sample_path_div
           sample_env "2024-05-22"%string sample_world).
  reflexivity.
Defined.

(** A date that is not accepted: the directory is made, nothing is
    requested. *)
Lemma download_without_links_writes_nothing_witness :
  nodes (fst (sample_run sample_env "22.05.2024"%string empty_world))
        (sample_Path H5_DATADIR)
  = Some Directory
  /\ requested (fst (sample_run sample_env "22.05.2024"%string empty_world))
     = requested empty_world.
Proof.
  destruct (download_without_links_writes_nothing sample_strptime_date sample_strftime
              sample_find_all_a_href sample_re_match sample_Path sample_path_div
              sample_env "22.05.2024"%string empty_world eq_refl)
    as (_ & Hdir & _ & Hrequested).
  split; [apply Hdir; reflexivity | apply Hrequested; reflexivity].
Defined.


(** A file stands where the directory should be: [mkdir] raises. *)
Example blocked_run :
  snd (sample_run sample_env "2024-05-22"%string blocked_world)
  = Some (OSError "datafiles")
  /\ requested (fst (sample_run sample_env "2024-05-22"%string blocked_world)) = [].
Proof. split; vm_compute; reflexivity. Qed.

(** The file of 00:10 arrives but cannot be opened: the [OSError] of [open]
    leaves the run, and the two links after it are not requested. *)
Example readonly_run :
  snd (sample_run readonly_env "2024-05-22"%string sample_world)
  = Some (OSError "datafiles/Composite.20240522.0010.h5")
  /\ requested (fst (sample_run readonly_env "2024-05-22"%string sample_world))
     = ["http://83.228.89.166/";
        "http://83.228.89.166/Composite.20240522.0010.h5"]%string.
Proof. split; vm_compute; reflexivity. Qed.


(** The file that is not found is not there after the run; its request was
    answered by a bad status. *)
Lemma download_attempts_every_link_witness :
  nodes (fst (sample_run sample_env "2024-05-22"%string sample_world))
        (sample_path_div (sample_Path H5_DATADIR) "Composite.20240522.0030.h5"%string)
  <> None
  \/ exists k error,
       nth_error (requested (fst (sample_run sample_env "2024-05-22"%string sample_world))) k
       = Some (SERVER_URL ++ "Composite.20240522.0030.h5")%string
       /\ (server sample_env k (SERVER_URL ++ "Composite.20240522.0030.h5")%string
           = NoResponse error
           \/ server sample_env k (SERVER_URL ++ "Composite.20240522.0030.h5")%string
              = BadStatus error).
Proof.
  apply (download_attempts_every_link sample_strptime_date sample_strftime
           sample_find_all_a_href sample_re_match sample_Path sample_path_div
           sample_env "2024-05-22"%string sample_world
           "Composite.20240522.0030.h5"%string).
  - vm_compute; reflexivity.
  - vm_compute. do 3 right. left. reflexivity.
Defined.

Lemma broken_download_is_kept_witness :
  snd (sample_download_one sample_env "datafiles"%string
         "Composite.20240522.0020.h5"%string sample_world)
  = None
  /\ nodes (fst (sample_download_one sample_env "datafiles"%string
                   "Composite.20240522.0020.h5"%string sample_world))
           "datafiles/Composite.20240522.0020.h5"%string
     = Some (File "HD").
Proof.
  destruct (broken_download_is_kept sample_path_div sample_env "datafiles"%string
              "Composite.20240522.0020.h5"%string sample_world ["HD"%string]
              "Connection broken: IncompleteRead"%string eq_refl eq_refl eq_refl)
    as (Hraised & Hfile & _).
  split; [exact Hraised | exact Hfile].
Defined.

Lemma parse_all_follows_listing_witness :
  exists names,
    listdir sample_fs H5_DATADIR = Some names
    /\ map filename sample_parseddata = filter (fun name => endswith name ".h5") names
    /\ Forall (fun r =>
                 (exists stem, filename r = (stem ++ ".h5")%string)
                 /\ In (filename r) names
                 /\ exists f,
                      h5py_File sample_fs (os_path_join H5_DATADIR (filename r)) = Some f
                      /\ sample_extract f (filename r) TARGET_LAT TARGET_LON = Ok r)
              sample_parseddata.
Proof.
  apply (parse_all_follows_listing sample_strptime string sample_CRS sample_transform
           sample_format_2f sample_fs sample_parseddata).
  reflexivity.
Defined.

Example failing_main : sample_main failing_fs = Raise (KeyError "enddate"%string).
Proof. reflexivity. Qed.


(** Two readings of one time keep the order they had. *)
Example report_ties :
  report_at 40%float
    [{| epoch := 2; value := "41.00 dBZ"; dbz := 41%float; filename := "c.h5" |};
     {| epoch := 1; value := "50.00 dBZ"; dbz := 50%float; filename := "b.h5" |};
     {| epoch := 1; value := "45.00 dBZ"; dbz := 45%float; filename := "a.h5" |}]
  = [{| epoch := 1; value := "50.00 dBZ"; dbz := 50%float; filename := "b.h5" |};
     {| epoch := 1; value := "45.00 dBZ"; dbz := 45%float; filename := "a.h5" |};
     {| epoch := 2; value := "41.00 dBZ"; dbz := 41%float; filename := "c.h5" |}].
Proof. reflexivity. Qed.

Lemma in_grid_reads_cell_witness :
  0 <= 168 < ysize sample_metadata /\ 0 <= 612 < xsize sample_metadata
  /\ sample_extract sample_file "storm.h5"%string TARGET_LAT TARGET_LON
     = Ok storm_reading.
Proof.
  exact (in_grid_reads_cell sample_strptime string sample_CRS sample_transform
           sample_format_2f sample_file "storm.h5"%string TARGET_LAT TARGET_LON
           sample_metadata 168 612 eq_refl eq_refl eq_refl).
Defined.

Lemma reading_needs_valid_end_text_witness :
  exists (what_attrs : H5.what_attrs) (date time : string) (dt_object : datetime),
    H5.what_group sample_file = Some what_attrs
    /\ H5.enddate what_attrs = Some date
    /\ H5.endtime what_attrs = Some time
    /\ is_ascii date = true /\ is_ascii time = true
    /\ sample_strptime (date ++ time) "%Y%m%d%H%M%S" = Some dt_object
    /\ -62135596800 <= epoch storm_reading <= 253402300799.
Proof.
  apply (reading_needs_valid_end_text sample_strptime string sample_CRS sample_transform
           sample_format_2f sample_file "storm.h5"%string TARGET_LAT TARGET_LON
           storm_reading).
  reflexivity.
Defined.

(** With both sentinels NaN the cell 255 is converted like any other. *)
Lemma nan_sentinel_never_matches_witness :
  sample_decode 255 0.5%float (-32)%float nan nan = ("95.50 dBZ"%string, 95.5%float).
Proof.
  exact (proj2 (proj2 (nan_sentinel_never_matches sample_format_2f 255 0.5%float
                         (-32)%float nan nan))
               eq_refl eq_refl).
Defined.

(** A reading whose number is NaN is left out at any threshold. *)
Example report_drops_nan :
  report_at neg_infinity
    [{| epoch := 1; value := "nan dBZ"; dbz := nan; filename := "a.h5" |}]
  = [].
Proof. reflexivity. Qed.

Lemma report_names_are_listed_once_witness :
  exists names,
    listdir sample_fs H5_DATADIR = Some names
    /\ Forall (fun r => In (filename r) names /\ endswith (filename r) ".h5" = true)
              [storm_reading]
    /\ (NoDup names ->
        NoDup (map filename [storm_reading]) /\ NoDup [storm_reading]).
Proof.
  apply (report_names_are_listed_once sample_strptime string sample_CRS sample_transform
           sample_format_2f sample_fs [storm_reading]).
  reflexivity.
Defined.
